(** * Blood_Connect: the notification fan-out service and the profile form

    A shallow embedding of
    - [NotificationService] (the socket.io client facade: connect, the three
      inbound handlers, respondToBloodRequest, markAsRead, subscribe,
      disconnect),
    - the three click handlers of [NotificationCenter] that call into it, and
    - [handleSave] / [handleCancel] of [ProfileSettings],
    followed by the properties the specification states about them.

    Conventions.  A method of the service is a computation in the monad [M]:
    it reads and writes the three private fields and appends to a trace of
    the calls it makes on the outside world (the socket, the subscriber
    callbacks, the browser, the toast library).  Subscriber callbacks are
    function objects compared by identity, so a callback is its identity; what
    a callback does when it is called is outside the service, and a call is
    recorded in the trace together with the array it received.  The clock and
    the browser's notification permission are read by the handlers and are
    inputs of an arrival. *)

From Stdlib Require Import String Ascii DecimalString.
From Stdlib Require Import List Bool Arith NArith Lia.
Import ListNotations.

Set Implicit Arguments.

(** ** JavaScript strings *)

(** A JavaScript string is a sequence of UTF-16 code units. *)
Module JS.

Definition code_unit := N.
Definition jsstring := list code_unit.

(** [a === b] on strings. *)
Fixpoint eqb (a b : jsstring) : bool :=
  match a, b with
  | [], [] => true
  | x :: a', y :: b' => N.eqb x y && eqb a' b'
  | _, _ => false
  end.

(** A literal of the source whose characters are all ASCII. *)
Definition lit (s : string) : jsstring :=
  map N_of_ascii (list_ascii_of_string s).

(** The code units [String.prototype.trim] strips: ECMAScript's WhiteSpace
    (TAB, VT, FF, ZWNBSP and the space separators) and LineTerminator
    (LF, CR, LS, PS). *)
Definition is_white_space (c : code_unit) : bool :=
  ((9 <=? c) && (c <=? 13) || (c =? 32) || (c =? 160) || (c =? 5760)
   || (8192 <=? c) && (c <=? 8202) || (c =? 8232) || (c =? 8233)
   || (c =? 8239) || (c =? 8287) || (c =? 12288) || (c =? 65279))%N.

Fixpoint trimStart (s : jsstring) : jsstring :=
  match s with
  | [] => []
  | c :: s' => if is_white_space c then trimStart s' else s
  end.

Definition trimEnd (s : jsstring) : jsstring := rev (trimStart (rev s)).

Definition trim (s : jsstring) : jsstring := trimEnd (trimStart s).

(** ToBoolean on a string: only the empty string is falsy. *)
Definition truthy (s : jsstring) : bool :=
  match s with [] => false | _ :: _ => true end.

(** ToBoolean on a possibly undefined string. *)
Definition truthy_opt (s : option jsstring) : bool :=
  match s with None => false | Some s' => truthy s' end.

(** [a || b] where [a] is a possibly undefined string. *)
Definition or_else (a : option jsstring) (b : jsstring) : jsstring :=
  match a with
  | Some s => if truthy s then s else b
  | None => b
  end.

End JS.

Abbreviation jsstring := JS.jsstring.

(** ** Shared data *)

(** [role: 'donor' | 'patient' | 'clinic'] *)
Module Role.
Inductive t := donor | patient | clinic.

Definition eqb (a b : t) : bool :=
  match a, b with
  | donor, donor | patient, patient | clinic, clinic => true
  | _, _ => false
  end.

Definition toString (r : t) : jsstring :=
  match r with
  | donor => JS.lit "donor"
  | patient => JS.lit "patient"
  | clinic => JS.lit "clinic"
  end.
End Role.

(** [interface UserProfile]; a field declared with [?] is an option. *)
Module UserProfile.
Record t := mk {
  id : jsstring;
  email : jsstring;
  fullName : jsstring;
  role : Role.t;
  bloodType : option jsstring;
  location : jsstring;
  phoneNumber : jsstring;
  createdAt : jsstring;
  isAvailable : option bool;
  organizationType : option jsstring;
  organizationName : option jsstring
}.
End UserProfile.

(** [urgency: 'critical' | 'high' | 'medium' | 'low'] *)
Module Urgency.
Inductive t := critical | high | medium | low.

Definition toUpperCase (u : t) : jsstring :=
  match u with
  | critical => JS.lit "CRITICAL"
  | high => JS.lit "HIGH"
  | medium => JS.lit "MEDIUM"
  | low => JS.lit "LOW"
  end.
End Urgency.

(** ** Payloads of the real-time channel *)

(** A JavaScript [number] is kept abstract: the service only stores numbers
    and interpolates them into template literals, so the embedding is
    parametric in the type [number] and in its [ToString]. *)

Module PatientInfo.
Record t (number : Type) := mk {
  age : number;
  gender : jsstring;
  condition : jsstring
}.
End PatientInfo.

(** [interface BloodRequest] *)
Module BloodRequest.
Record t (number : Type) := mk {
  id : jsstring;
  bloodType : jsstring;
  urgency : Urgency.t;
  location : jsstring;
  distance : number;
  requiredBy : jsstring;
  patientInfo : PatientInfo.t number;
  hospitalName : jsstring;
  contactInfo : jsstring
}.
End BloodRequest.

(** The payload of [donation_accepted] is declared [any]; the handler reads
    [data.requestId] and [data.donor.name]. *)
Module Donor.
Record t := mk { name : jsstring }.
End Donor.

Module DonationAccepted.
Record t := mk {
  requestId : jsstring;
  donor : Donor.t
}.
End DonationAccepted.

(** The payload of [request_fulfilled] is declared [any]; the handler reads
    [data.requestId]. *)
Module RequestFulfilled.
Record t := mk { requestId : jsstring }.
End RequestFulfilled.

(** What arrives on the channel: the event name with its payload. *)
Module InboundEvent.
Inductive t (number : Type) :=
| blood_request_match (data : BloodRequest.t number)
| donation_accepted (data : DonationAccepted.t)
| request_fulfilled (data : RequestFulfilled.t).
Arguments donation_accepted {number} data.
Arguments request_fulfilled {number} data.
End InboundEvent.

(** [type: 'blood_request' | 'donation_accepted' | 'request_fulfilled'] *)
Module NotificationType.
Inductive t := blood_request | donation_accepted | request_fulfilled.
End NotificationType.

(** [interface NotificationData].  [data?: any] holds the payload of the
    event the record was made from. *)
Module NotificationData.
Record t (number : Type) := mk {
  id : jsstring;
  type : NotificationType.t;
  title : jsstring;
  message : jsstring;
  data : option (InboundEvent.t number);
  timestamp : number;
  read : bool
}.

(** [{ ...n, read: true }] *)
Definition with_read_true {number} (n : t number) : t number :=
  mk (id n) (type n) (title n) (message n) (data n) (timestamp n) true.
End NotificationData.

(** [response: 'accept' | 'decline'] *)
Module Response.
Inductive t := accept | decline.
End Response.

(** The [userInfo] objects the click handlers build; [phone] and [bloodType]
    are absent from the one built on decline. *)
Module DonorInfo.
Record t := mk {
  id : jsstring;
  name : jsstring;
  phone : option jsstring;
  bloodType : option jsstring
}.
End DonorInfo.

(** The object emitted with [donor_response]. *)
Module DonorResponse.
Record t := mk {
  requestId : jsstring;
  response : Response.t;
  donorInfo : DonorInfo.t
}.
End DonorResponse.

(** The [auth] option of [io]. *)
Module Auth.
Record t := mk {
  userId : jsstring;
  userRole : jsstring;
  bloodType : option jsstring;
  location : jsstring
}.
End Auth.

(** A socket, as [io(url, { auth })] made it. *)
Module Socket.
Record t := mk {
  url : jsstring;
  auth : Auth.t
}.
End Socket.

(** [Notification.permission] *)
Module Permission.
Inductive t := granted | denied | default.
End Permission.

(** ** [class NotificationService] *)

Module NotificationService.

(** A subscriber callback is a function object; [!==] compares identities. *)
Definition Callback := nat.

Section Service.

Context {number : Type}.
(** ToString of a number, as a template literal applies it. *)
Variable number_to_string : number -> jsstring.

Definition Notifications := list (NotificationData.t number).

(** The private fields. *)
Record t := mk {
  socket : option Socket.t;
  notifications : Notifications;
  listeners : list Callback
}.

(** [new NotificationService()] *)
Definition new : t := mk None [] [].

(** The calls the service makes on its surroundings, in program order. *)
Inductive Effect :=
| Io (sock : Socket.t)
| SocketOn (sock : Socket.t) (event : jsstring)
| SocketEmit (sock : Socket.t) (event : jsstring) (payload : DonorResponse.t)
| SocketDisconnect (sock : Socket.t)
| ListenerCall (listener : Callback) (snapshot : Notifications)
| NewNotification (title body icon tag : jsstring)
| ToastError (message : jsstring) (onClick : NotificationData.t number)
    (autoClose : N)
| ToastSuccess (message : jsstring) (autoClose : N)
| DispatchEvent (name : jsstring) (detail : option (InboundEvent.t number))
| ConsoleLog (text : jsstring).

(** A method body: from the fields to a result, the new fields and the
    calls made. *)
Definition M (A : Type) : Type := t -> A * t * list Effect.

Definition ret {A} (a : A) : M A := fun s => (a, s, []).

Definition bind {A B} (m : M A) (k : A -> M B) : M B :=
  fun s =>
    let '(a, s1, tr1) := m s in
    let '(b, s2, tr2) := k a s1 in
    (b, s2, tr1 ++ tr2).

Definition get : M t := fun s => (s, s, []).
Definition put (s : t) : M unit := fun _ => (tt, s, []).
Definition emit (e : Effect) : M unit := fun s => (tt, s, [e]).

Notation "x <- m ;; k" := (bind m (fun x => k))
  (at level 61, m at next level, right associativity).
Notation "m ;; k" := (bind m (fun _ => k))
  (at level 61, right associativity).

(** [xs.forEach(f)] *)
Fixpoint forEach {A} (xs : list A) (f : A -> M unit) : M unit :=
  match xs with
  | [] => ret tt
  | x :: xs' => f x ;; forEach xs' f
  end.

(** What the handlers read from their surroundings when an event arrives:
    [Date.now()], [new Date()] and [Notification.permission]. *)
Record Env := mkEnv {
  now : number;
  date : number;
  permission : Permission.t
}.

Definition result {A} (r : A * t * list Effect) : A := fst (fst r).
Definition state {A} (r : A * t * list Effect) : t := snd (fst r).
Definition trace {A} (r : A * t * list Effect) : list Effect := snd r.

(** [if (this.socket)] *)
Definition is_open (s : t) : bool :=
  match socket s with Some _ => true | None => false end.

(** [private notifyListeners()] *)
Definition notifyListeners : M unit :=
  s <- get ;;
  forEach (listeners s) (fun listener =>
    s' <- get ;;
    emit (ListenerCall listener (notifications s'))).

(** [private addNotification(notification)] *)
Definition addNotification (notification : NotificationData.t number)
  : M unit :=
  s <- get ;;
  put (mk (socket s) (notification :: notifications s) (listeners s)) ;;
  notifyListeners.

(** [private showBrowserNotification(notification)] *)
Definition showBrowserNotification (env : Env)
  (notification : NotificationData.t number) : M unit :=
  match permission env with
  | Permission.granted =>
      emit (NewNotification (NotificationData.title notification)
              (NotificationData.message notification)
              (JS.lit "/blood-icon.png")
              (NotificationData.id notification))
  | _ => ret tt
  end.

(** [private showToastNotification(notification)] *)
Definition showToastNotification (notification : NotificationData.t number)
  : M unit :=
  match NotificationData.type notification with
  | NotificationType.blood_request =>
      emit (ToastError (NotificationData.message notification)
              notification 8000)
  | _ => emit (ToastSuccess (NotificationData.message notification) 5000)
  end.

(** [private handleNotificationClick(notification)] *)
Definition handleNotificationClick (notification : NotificationData.t number)
  : M unit :=
  match NotificationData.type notification with
  | NotificationType.blood_request =>
      emit (DispatchEvent (JS.lit "bloodRequestNotification")
              (NotificationData.data notification))
  | _ => ret tt
  end.

(** The record the [blood_request_match] handler builds. *)
Definition blood_request_notification (env : Env)
  (data : BloodRequest.t number) : NotificationData.t number :=
  NotificationData.mk
    (JS.lit "req_" ++ BloodRequest.id data ++ JS.lit "_"
       ++ number_to_string (now env))
    NotificationType.blood_request
    ([55358; 56952]%N ++ JS.lit " "
       ++ Urgency.toUpperCase (BloodRequest.urgency data)
       ++ JS.lit " Blood Request")
    (BloodRequest.bloodType data ++ JS.lit " blood needed at "
       ++ BloodRequest.hospitalName data ++ JS.lit " ("
       ++ number_to_string (BloodRequest.distance data)
       ++ JS.lit "km away)")
    (Some (InboundEvent.blood_request_match data))
    (date env)
    false.

(** The record the [donation_accepted] handler builds. *)
Definition donation_accepted_notification (env : Env)
  (data : DonationAccepted.t) : NotificationData.t number :=
  NotificationData.mk
    (JS.lit "acc_" ++ DonationAccepted.requestId data ++ JS.lit "_"
       ++ number_to_string (now env))
    NotificationType.donation_accepted
    ([9989]%N ++ JS.lit " Donor Found!")
    (Donor.name (DonationAccepted.donor data)
       ++ JS.lit " has accepted your blood request")
    (Some (InboundEvent.donation_accepted data))
    (date env)
    false.

(** The record the [request_fulfilled] handler builds. *)
Definition request_fulfilled_notification (env : Env)
  (data : RequestFulfilled.t) : NotificationData.t number :=
  NotificationData.mk
    (JS.lit "ful_" ++ RequestFulfilled.requestId data ++ JS.lit "_"
       ++ number_to_string (now env))
    NotificationType.request_fulfilled
    ([55356; 57225]%N ++ JS.lit " Request Completed")
    (JS.lit "Blood request has been successfully fulfilled")
    (Some (InboundEvent.request_fulfilled data))
    (date env)
    false.

(** The record a handler builds for an event. *)
Definition notification_of (env : Env) (e : InboundEvent.t number)
  : NotificationData.t number :=
  match e with
  | InboundEvent.blood_request_match data =>
      blood_request_notification env data
  | InboundEvent.donation_accepted data =>
      donation_accepted_notification env data
  | InboundEvent.request_fulfilled data =>
      request_fulfilled_notification env data
  end.

(** The three listeners registered in [connect]; each builds its record and
    runs the same three calls. *)
Definition handler (env : Env) (e : InboundEvent.t number) : M unit :=
  let notification := notification_of env e in
  addNotification notification ;;
  showBrowserNotification env notification ;;
  showToastNotification notification.

(** The listener of the socket's own [connect] event. *)
Definition on_connect : M unit :=
  emit (ConsoleLog ([55357; 56599]%N
                      ++ JS.lit " Connected to notification service")).

(** [connect(userId, userRole, userProfile)];
    [REACT_APP_SOCKET_URL] is [process.env.REACT_APP_SOCKET_URL]. *)
Definition connect (REACT_APP_SOCKET_URL : option jsstring)
  (userId userRole : jsstring) (userProfile : UserProfile.t) : M unit :=
  s <- get ;;
  match socket s with
  | Some _ => ret tt
  | None =>
      let sock :=
        Socket.mk
          (JS.or_else REACT_APP_SOCKET_URL (JS.lit "http://localhost:5000"))
          (Auth.mk userId userRole (UserProfile.bloodType userProfile)
             (UserProfile.location userProfile)) in
      emit (Io sock) ;;
      put (mk (Some sock) (notifications s) (listeners s)) ;;
      emit (SocketOn sock (JS.lit "connect")) ;;
      emit (SocketOn sock (JS.lit "blood_request_match")) ;;
      emit (SocketOn sock (JS.lit "donation_accepted")) ;;
      emit (SocketOn sock (JS.lit "request_fulfilled"))
  end.

(** [respondToBloodRequest(requestId, response, userInfo)] *)
Definition respondToBloodRequest (requestId : jsstring)
  (response : Response.t) (userInfo : DonorInfo.t) : M unit :=
  s <- get ;;
  match socket s with
  | Some sock =>
      emit (SocketEmit sock (JS.lit "donor_response")
              (DonorResponse.mk requestId response userInfo))
  | None => ret tt
  end.

(** [markAsRead(notificationId)] *)
Definition markAsRead (notificationId : jsstring) : M unit :=
  s <- get ;;
  put (mk (socket s)
         (map (fun n =>
                 if JS.eqb (NotificationData.id n) notificationId
                 then NotificationData.with_read_true n else n)
            (notifications s))
         (listeners s)) ;;
  notifyListeners.

(** [getNotifications()] *)
Definition getNotifications : M Notifications :=
  s <- get ;; ret (notifications s).

(** [getUnreadCount()] *)
Definition getUnreadCount : M nat :=
  s <- get ;;
  ret (length (filter (fun n => negb (NotificationData.read n))
                 (notifications s))).

(** The closure [subscribe(callback)] returns. *)
Definition unsubscribe (callback : Callback) : M unit :=
  s <- get ;;
  put (mk (socket s) (notifications s)
         (filter (fun l => negb (Nat.eqb l callback)) (listeners s))).

(** [subscribe(callback)] *)
Definition subscribe (callback : Callback) : M (M unit) :=
  s <- get ;;
  put (mk (socket s) (notifications s) (listeners s ++ [callback])) ;;
  ret (unsubscribe callback).

(** [disconnect()] *)
Definition disconnect : M unit :=
  s <- get ;;
  match socket s with
  | Some sock =>
      emit (SocketDisconnect sock) ;;
      put (mk None (notifications s) (listeners s))
  | None => ret tt
  end.

(** *** The service in use *)

(** The socket delivers an inbound event to the listener registered for it.
    Listeners are registered on the socket [connect] opened; a socket that
    was closed, or never opened, delivers nothing. *)
Definition receive (env : Env) (e : InboundEvent.t number) : M unit :=
  s <- get ;;
  match socket s with
  | Some _ => handler env e
  | None => ret tt
  end.

(** The socket reports that it is connected. *)
Definition connected : M unit :=
  s <- get ;;
  match socket s with
  | Some _ => on_connect
  | None => ret tt
  end.

(** One thing that happens to the service: a call of a public method, a
    call of the closure a [subscribe] returned, an event on the socket, or
    a click on a toast. *)
Inductive Op :=
| Connect (REACT_APP_SOCKET_URL : option jsstring)
    (userId userRole : jsstring) (userProfile : UserProfile.t)
| Connected
| Receive (env : Env) (e : InboundEvent.t number)
| ToastClick (notification : NotificationData.t number)
| RespondToBloodRequest (requestId : jsstring) (response : Response.t)
    (userInfo : DonorInfo.t)
| MarkAsRead (notificationId : jsstring)
| GetNotifications
| GetUnreadCount
| Subscribe (callback : Callback)
| Unsubscribe (callback : Callback)
| Disconnect.

Definition step (op : Op) : M unit :=
  match op with
  | Connect env_url userId userRole userProfile =>
      connect env_url userId userRole userProfile
  | Connected => connected
  | Receive env e => receive env e
  | ToastClick notification => handleNotificationClick notification
  | RespondToBloodRequest requestId response userInfo =>
      respondToBloodRequest requestId response userInfo
  | MarkAsRead notificationId => markAsRead notificationId
  | GetNotifications => getNotifications ;; ret tt
  | GetUnreadCount => getUnreadCount ;; ret tt
  | Subscribe callback => subscribe callback ;; ret tt
  | Unsubscribe callback => unsubscribe callback
  | Disconnect => disconnect
  end.

Fixpoint run (ops : list Op) : M unit :=
  match ops with
  | [] => ret tt
  | op :: ops' => step op ;; run ops'
  end.

(** The subscriber calls of a trace, in order. *)
Fixpoint listener_calls (tr : list Effect)
  : list (Callback * Notifications) :=
  match tr with
  | [] => []
  | ListenerCall listener snapshot :: tr' =>
      (listener, snapshot) :: listener_calls tr'
  | _ :: tr' => listener_calls tr'
  end.

(** The [donor_response] objects a trace emits, in order. *)
Fixpoint emitted (tr : list Effect) : list DonorResponse.t :=
  match tr with
  | [] => []
  | SocketEmit _ _ payload :: tr' => payload :: emitted tr'
  | _ :: tr' => emitted tr'
  end.

End Service.

Arguments Effect : clear implicits.
Arguments t : clear implicits.
Arguments Op : clear implicits.
Arguments Env : clear implicits.
Arguments M : clear implicits.

End NotificationService.

(** ** The click handlers of [NotificationCenter] *)

Module NotificationCenter.

Section Handlers.

Context {number : Type}.
(** The [userProfile] prop. *)
Variable userProfile : UserProfile.t.

(** [handleMarkAsRead(notificationId)] *)
Definition handleMarkAsRead (notificationId : jsstring)
  : NotificationService.M number unit :=
  NotificationService.markAsRead notificationId.

(** [handleAcceptBloodRequest(requestData)] *)
Definition handleAcceptBloodRequest (requestData : BloodRequest.t number)
  : NotificationService.M number unit :=
  NotificationService.respondToBloodRequest
    (BloodRequest.id requestData)
    Response.accept
    (DonorInfo.mk (UserProfile.id userProfile)
       (UserProfile.fullName userProfile)
       (Some (UserProfile.phoneNumber userProfile))
       (UserProfile.bloodType userProfile)).

(** [handleDeclineBloodRequest(requestData)] *)
Definition handleDeclineBloodRequest (requestData : BloodRequest.t number)
  : NotificationService.M number unit :=
  NotificationService.respondToBloodRequest
    (BloodRequest.id requestData)
    Response.decline
    (DonorInfo.mk (UserProfile.id userProfile)
       (UserProfile.fullName userProfile)
       None
       None).

End Handlers.

End NotificationCenter.

(** ** [ProfileSettings] *)

(** The draft held in [formData]. *)
Module FormData.
Record t := mk {
  fullName : jsstring;
  phoneNumber : jsstring;
  location : jsstring;
  bloodType : jsstring;
  isAvailable : bool;
  organizationName : jsstring;
  organizationType : jsstring
}.
End FormData.

(** The object literal [updateData]: a property the spreads did not add is
    absent. *)
Module UpdateData.
Record t := mk {
  fullName : jsstring;
  phoneNumber : jsstring;
  location : jsstring;
  bloodType : option jsstring;
  isAvailable : option bool;
  organizationName : option jsstring;
  organizationType : option jsstring
}.
End UpdateData.

(** A thrown value, as far as the [catch] block looks at it:
    [error.message]. *)
Module Thrown.
Record t := mk { message : option jsstring }.
End Thrown.

Module ProfileSettings.

(** The component state: the three [useState] cells. *)
Record t := mk {
  isEditing : bool;
  isLoading : bool;
  formData : FormData.t
}.

(** The calls the handlers make on their surroundings. *)
Inductive Effect :=
| ProfileUpdate (updateData : UpdateData.t)
| ToastSuccess (message : jsstring)
| ToastError (message : jsstring)
| OnProfileUpdate
| ConsoleError (label : jsstring) (error : Thrown.t).

(** How [await profile.update(updateData)] ends: with a result object whose
    [error] property may be set, or by throwing. *)
Inductive UpdateOutcome :=
| Resolved (error : option jsstring)
| Rejected (error : Thrown.t).

(** A handler body: it may throw. *)
Definition P (A : Type) : Type := t -> (A + Thrown.t) * t * list Effect.

Definition ret {A} (a : A) : P A := fun s => (inl a, s, []).

Definition throw {A} (e : Thrown.t) : P A := fun s => (inr e, s, []).

Definition bind {A B} (m : P A) (k : A -> P B) : P B :=
  fun s =>
    match m s with
    | (inl a, s1, tr1) =>
        let '(b, s2, tr2) := k a s1 in (b, s2, tr1 ++ tr2)
    | (inr e, s1, tr1) => (inr e, s1, tr1)
    end.

(** [try { body } catch (error) { handler } finally { final }] where
    neither [handler] nor [final] throws. *)
Definition try_catch_finally (body : P unit) (handler : Thrown.t -> P unit)
  (final : P unit) : P unit :=
  fun s =>
    match body s with
    | (inl _, s1, tr1) =>
        let '(r, s2, tr2) := final s1 in (r, s2, tr1 ++ tr2)
    | (inr e, s1, tr1) =>
        let '(_, s2, tr2) := handler e s1 in
        let '(r, s3, tr3) := final s2 in
        (r, s3, tr1 ++ tr2 ++ tr3)
    end.

Definition emit (e : Effect) : P unit := fun s => (inl tt, s, [e]).

Definition setIsEditing (b : bool) : P unit :=
  fun s => (inl tt, mk b (isLoading s) (formData s), []).

Definition setIsLoading (b : bool) : P unit :=
  fun s => (inl tt, mk (isEditing s) b (formData s), []).

Definition setFormData (d : FormData.t) : P unit :=
  fun s => (inl tt, mk (isEditing s) (isLoading s) d, []).

Notation "x <- m ;; k" := (bind m (fun x => k))
  (at level 61, m at next level, right associativity).
Notation "m ;; k" := (bind m (fun _ => k))
  (at level 61, right associativity).

(** The initial value of [formData], also what [handleCancel] restores. *)
Definition committed (userProfile : UserProfile.t) : FormData.t :=
  FormData.mk
    (UserProfile.fullName userProfile)
    (UserProfile.phoneNumber userProfile)
    (UserProfile.location userProfile)
    (JS.or_else (UserProfile.bloodType userProfile) [])
    (match UserProfile.isAvailable userProfile with
     | Some b => b
     | None => false
     end)
    (JS.or_else (UserProfile.organizationName userProfile) [])
    (JS.or_else (UserProfile.organizationType userProfile) []).

(** The state of a freshly mounted component. *)
Definition mount (userProfile : UserProfile.t) : t :=
  mk false false (committed userProfile).

(** The object literal built in [handleSave]. *)
Definition updateData (userProfile : UserProfile.t) (formData : FormData.t)
  : UpdateData.t :=
  let donor := Role.eqb (UserProfile.role userProfile) Role.donor in
  let clinic := Role.eqb (UserProfile.role userProfile) Role.clinic in
  UpdateData.mk
    (JS.trim (FormData.fullName formData))
    (JS.trim (FormData.phoneNumber formData))
    (JS.trim (FormData.location formData))
    (if donor then Some (FormData.bloodType formData) else None)
    (if donor then Some (FormData.isAvailable formData) else None)
    (if clinic then Some (JS.trim (FormData.organizationName formData))
     else None)
    (if clinic then Some (FormData.organizationType formData) else None).

(** [await profile.update(updateData)]: the call is made, and ends as
    [outcome] says. *)
Definition profile_update (outcome : UpdateOutcome) (d : UpdateData.t)
  : P (option jsstring) :=
  emit (ProfileUpdate d) ;;
  match outcome with
  | Resolved error => ret error
  | Rejected e => throw e
  end.

(** [onProfileUpdate()]: the caller's callback is called, and may throw. *)
Definition onProfileUpdate (thrown : option Thrown.t) : P unit :=
  emit OnProfileUpdate ;;
  match thrown with
  | None => ret tt
  | Some e => throw e
  end.

(** [handleSave], for a component with props [userProfile]. *)
Definition handleSave (userProfile : UserProfile.t)
  (outcome : UpdateOutcome) (refresh_throws : option Thrown.t) : P unit :=
  try_catch_finally
    (setIsLoading true ;;
     s <- (fun s => (inl s, s, [])) ;;
     error <- profile_update outcome (updateData userProfile (formData s)) ;;
     (if JS.truthy_opt error then throw (Thrown.mk error) else ret tt) ;;
     setIsEditing false ;;
     emit (ToastSuccess (JS.lit "Profile updated successfully!")) ;;
     onProfileUpdate refresh_throws)
    (fun error =>
       emit (ConsoleError (JS.lit "Error updating profile:") error) ;;
       emit (ToastError (JS.or_else (Thrown.message error)
                           (JS.lit "Failed to update profile"))))
    (setIsLoading false).

(** [handleCancel] *)
Definition handleCancel (userProfile : UserProfile.t) : P unit :=
  setFormData (committed userProfile) ;;
  setIsEditing false.

(** The update calls of a trace, in order. *)
Fixpoint updates (tr : list Effect) : list UpdateData.t :=
  match tr with
  | [] => []
  | ProfileUpdate d :: tr' => d :: updates tr'
  | _ :: tr' => updates tr'
  end.

(** How often a trace calls the refresh callback. *)
Fixpoint refreshes (tr : list Effect) : nat :=
  match tr with
  | [] => 0
  | OnProfileUpdate :: tr' => S (refreshes tr')
  | _ :: tr' => refreshes tr'
  end.

(** The messages a trace shows as error toasts, in order. *)
Fixpoint error_toasts (tr : list Effect) : list jsstring :=
  match tr with
  | [] => []
  | ToastError m :: tr' => m :: error_toasts tr'
  | _ :: tr' => error_toasts tr'
  end.

(** The update call failed: its result carries a truthy [error], or it
    threw. *)
Definition failed (outcome : UpdateOutcome) : bool :=
  match outcome with
  | Resolved error => JS.truthy_opt error
  | Rejected _ => true
  end.

End ProfileSettings.

(** ** Vocabulary of the properties *)

Module Spec.

Section Vocabulary.

Context {number : Type}.

(** The number of records of a snapshot whose read flag is false. *)
Fixpoint unread (snapshot : list (NotificationData.t number)) : nat :=
  match snapshot with
  | [] => 0
  | n :: rest =>
      if NotificationData.read n then unread rest else S (unread rest)
  end.

(** The subscriber calls expected while [records] are inserted one after
    the other in front of [current]: after each insertion every subscriber,
    in subscription order, with the list as it then is. *)
Fixpoint deliveries (subscribers : list NotificationService.Callback)
  (current records : list (NotificationData.t number))
  : list (NotificationService.Callback * list (NotificationData.t number)) :=
  match records with
  | [] => []
  | n :: rest =>
      map (fun c => (c, n :: current)) subscribers
        ++ deliveries subscribers (n :: current) rest
  end.

(** An earlier record [o] and what became of it, [n]: the same record, or
    the same record marked read. *)
Definition aged (o n : NotificationData.t number) : Prop :=
  n = o \/ n = NotificationData.with_read_true o.

(** The list [new] comes from the list [old] by ageing its records in place
    and putting the records [fresh] in front. *)
Definition evolves (old new : list (NotificationData.t number)) : Prop :=
  exists fresh older,
    new = fresh ++ older
    /\ Forall2 aged old older
    /\ Forall2
         (fun o n =>
            Bool.le (NotificationData.read o) (NotificationData.read n))
         old older.

(** [callback] is subscribed again somewhere in [ops]. *)
Fixpoint resubscribes (callback : NotificationService.Callback)
  (ops : list (NotificationService.Op number)) : bool :=
  match ops with
  | [] => false
  | NotificationService.Subscribe c :: ops' =>
      Nat.eqb c callback || resubscribes callback ops'
  | _ :: ops' => resubscribes callback ops'
  end.

(** The number of events among [ops] that reach a listener, when the
    channel is open or not, as [open] says, before [ops]. *)
Fixpoint received (open : bool) (ops : list (NotificationService.Op number))
  : nat :=
  match ops with
  | [] => 0
  | NotificationService.Connect _ _ _ _ :: ops' => received true ops'
  | NotificationService.Disconnect :: ops' => received false ops'
  | NotificationService.Receive _ _ :: ops' =>
      (if open then 1 else 0) + received open ops'
  | _ :: ops' => received open ops'
  end.

(** The operations of a sequence of arrivals. *)
Definition arrivals (evs : list (NotificationService.Env number
                                  * InboundEvent.t number))
  : list (NotificationService.Op number) :=
  map (fun a => NotificationService.Receive (fst a) (snd a)) evs.

End Vocabulary.

End Spec.

(** ** Sample data *)

Module Sample.

(** Numbers as naturals, printed in decimal. *)
Definition decimal (n : N) : jsstring :=
  JS.lit (NilEmpty.string_of_uint (N.to_uint n)).

Definition donor : UserProfile.t :=
  UserProfile.mk (JS.lit "u1") (JS.lit "jane@example.org")
    (JS.lit "  Jane Doe  ") Role.donor (Some (JS.lit "O-"))
    (JS.lit "Pune") (JS.lit "555-0101") (JS.lit "2024-01-01")
    (Some true) None None.

Definition request : BloodRequest.t N :=
  BloodRequest.mk (JS.lit "r7") (JS.lit "O-") Urgency.critical
    (JS.lit "Pune") 3%N (JS.lit "2024-06-01")
    (PatientInfo.mk 42%N (JS.lit "F") (JS.lit "surgery"))
    (JS.lit "City Hospital") (JS.lit "555-0199").

Definition env (now : N) : NotificationService.Env N :=
  NotificationService.mkEnv now now Permission.granted.

Definition sock : Socket.t :=
  Socket.mk (JS.lit "http://localhost:5000")
    (Auth.mk (JS.lit "u1") (JS.lit "donor") (Some (JS.lit "O-"))
       (JS.lit "Pune")).

(** A connected service with one unread record and two subscribers. *)
Definition service : NotificationService.t N :=
  NotificationService.mk (Some sock)
    [NotificationService.blood_request_notification decimal (env 1000)
       request]
    [1; 2].

Definition events
  : list (NotificationService.Env N * InboundEvent.t N) :=
  [ (env 1001, InboundEvent.blood_request_match request);
    (env 1002,
     InboundEvent.donation_accepted
       (DonationAccepted.mk (JS.lit "r7") (Donor.mk (JS.lit "Jane"))));
    (env 1003,
     InboundEvent.request_fulfilled (RequestFulfilled.mk (JS.lit "r7"))) ].

End Sample.

(** ** [NotificationCenter]: the component around the handlers *)

(** [filter: 'all' | 'unread'] *)
Module Filter.
Inductive t := all | unread.

End Filter.

Module NotificationList.

Section Component.

Import NotificationService.

Context {number : Type}.

Local Notation "x <- m ;; k" := (bind m (fun x => k))
  (at level 61, m at next level, right associativity).
Local Notation "m ;; k" := (bind m (fun _ => k))
  (at level 61, right associativity).

(** The body of the [useEffect]: connect, subscribe the component's
    callback, and load the list there is.  It returns the list handed to
    [setNotifications] and the clean-up function. *)
Definition effect (REACT_APP_SOCKET_URL : option jsstring)
  (userProfile : UserProfile.t) (callback : Callback)
  : M number (list (NotificationData.t number) * M number unit) :=
  connect REACT_APP_SOCKET_URL (UserProfile.id userProfile)
    (Role.toString (UserProfile.role userProfile)) userProfile ;;
  unsubscribe <- subscribe callback ;;
  existing <- getNotifications ;;
  ret (existing, unsubscribe).

(** The component's [notifications] state: its callback is
    [setNotifications], so the state is the list of the last call the
    callback received, or [initial] when it received none. *)
Definition shown (callback : Callback)
  (initial : list (NotificationData.t number))
  (tr : list (Effect number)) : list (NotificationData.t number) :=
  fold_left
    (fun current call =>
       if Nat.eqb (fst call) callback then snd call else current)
    (listener_calls tr) initial.


End Component.

End NotificationList.

(** ** [NotificationCard] *)

Module NotificationCard.

Section Card.

Context {number : Type}.

(** [notification.type === 'blood_request' && notification.data]: the
    request details are rendered. *)
Definition showsDetails (notification : NotificationData.t number) : bool :=
  match NotificationData.type notification with
  | NotificationType.blood_request =>
      match NotificationData.data notification with
      | Some _ => true
      | None => false
      end
  | _ => false
  end.

(** The accept and decline buttons are rendered: inside the details, and
    only when [userRole === 'donor']. *)
Definition showsActions (userRole : jsstring)
  (notification : NotificationData.t number) : bool :=
  showsDetails notification && JS.eqb userRole (JS.lit "donor").

(** The mark-as-read button is rendered: [!notification.read]. *)
Definition showsMarkAsRead (notification : NotificationData.t number)
  : bool :=
  negb (NotificationData.read notification).

(** The blood request a card passes to [onAcceptRequest] and
    [onDeclineRequest], when [notification.data] is one. *)
Definition requestData (notification : NotificationData.t number)
  : option (BloodRequest.t number) :=
  match NotificationData.data notification with
  | Some (InboundEvent.blood_request_match data) => Some data
  | _ => None
  end.

(** A click on "Accept Request": [onAcceptRequest(notification.data)].
    There is no click when the button is not rendered; a record whose data
    is no blood request has no [requestData]. *)
Definition clickAccept (userProfile : UserProfile.t)
  (notification : NotificationData.t number)
  : option (NotificationService.M number unit) :=
  if showsActions (Role.toString (UserProfile.role userProfile)) notification
  then option_map (NotificationCenter.handleAcceptBloodRequest userProfile)
         (requestData notification)
  else None.

(** A click on "Not Available": [onDeclineRequest(notification.data)]. *)
Definition clickDecline (userProfile : UserProfile.t)
  (notification : NotificationData.t number)
  : option (NotificationService.M number unit) :=
  if showsActions (Role.toString (UserProfile.role userProfile)) notification
  then option_map (NotificationCenter.handleDeclineBloodRequest userProfile)
         (requestData notification)
  else None.

(** A click on "Mark as read": [onMarkAsRead(notification.id)]. *)
Definition clickMarkAsRead (notification : NotificationData.t number)
  : option (NotificationService.M number unit) :=
  if showsMarkAsRead notification
  then Some (NotificationCenter.handleMarkAsRead
               (NotificationData.id notification))
  else None.

End Card.

End NotificationCard.

(** ** [ProfileSettings]: the inputs and the avatar *)

Module ProfileForm.

Import ProfileSettings.

(** A change of one input: the field and the value typed, picked or
    switched. *)
Inductive Change :=
| FullName (value : jsstring)
| PhoneNumber (value : jsstring)
| Location (value : jsstring)
| BloodType (value : jsstring)
| IsAvailable (checked : bool)
| OrganizationName (value : jsstring)
| OrganizationType (value : jsstring).

(** The [onChange], [onValueChange] and [onCheckedChange] handlers:
    [setFormData({...formData, field: value})]. *)
Definition onChange (c : Change) : P unit :=
  fun s =>
    let d := formData s in
    setFormData
      match c with
      | FullName v =>
          FormData.mk v (FormData.phoneNumber d) (FormData.location d)
            (FormData.bloodType d) (FormData.isAvailable d)
            (FormData.organizationName d) (FormData.organizationType d)
      | PhoneNumber v =>
          FormData.mk (FormData.fullName d) v (FormData.location d)
            (FormData.bloodType d) (FormData.isAvailable d)
            (FormData.organizationName d) (FormData.organizationType d)
      | Location v =>
          FormData.mk (FormData.fullName d) (FormData.phoneNumber d) v
            (FormData.bloodType d) (FormData.isAvailable d)
            (FormData.organizationName d) (FormData.organizationType d)
      | BloodType v =>
          FormData.mk (FormData.fullName d) (FormData.phoneNumber d)
            (FormData.location d) v (FormData.isAvailable d)
            (FormData.organizationName d) (FormData.organizationType d)
      | IsAvailable b =>
          FormData.mk (FormData.fullName d) (FormData.phoneNumber d)
            (FormData.location d) (FormData.bloodType d) b
            (FormData.organizationName d) (FormData.organizationType d)
      | OrganizationName v =>
          FormData.mk (FormData.fullName d) (FormData.phoneNumber d)
            (FormData.location d) (FormData.bloodType d)
            (FormData.isAvailable d) v (FormData.organizationType d)
      | OrganizationType v =>
          FormData.mk (FormData.fullName d) (FormData.phoneNumber d)
            (FormData.location d) (FormData.bloodType d)
            (FormData.isAvailable d) (FormData.organizationName d) v
      end
      s.

(** The "Edit Profile" button: [setIsEditing(true)]. *)
Definition clickEdit : P unit := setIsEditing true.

(** A run of changes, one event after the other. *)
Fixpoint changes (cs : list Change) : P unit :=
  match cs with
  | [] => ret tt
  | c :: cs' => bind (onChange c) (fun _ => changes cs')
  end.

(** The draft a saved payload would give when typed in again. *)
Definition retyped (d : FormData.t) (u : UpdateData.t) : FormData.t :=
  FormData.mk (UpdateData.fullName u) (UpdateData.phoneNumber u)
    (UpdateData.location u)
    (match UpdateData.bloodType u with
     | Some v => v
     | None => FormData.bloodType d
     end)
    (match UpdateData.isAvailable u with
     | Some b => b
     | None => FormData.isAvailable d
     end)
    (match UpdateData.organizationName u with
     | Some v => v
     | None => FormData.organizationName d
     end)
    (match UpdateData.organizationType u with
     | Some v => v
     | None => FormData.organizationType d
     end).

End ProfileForm.

(** The avatar's fallback text:
    [fullName.split(' ').map(n => n[0]).join('').toUpperCase()]. *)
Module Avatar.

(** [s.split(separator)] for a separator of one code unit. *)
Fixpoint split (separator : JS.code_unit) (s : jsstring) : list jsstring :=
  match s with
  | [] => [[]]
  | c :: s' =>
      if N.eqb c separator then [] :: split separator s'
      else
        match split separator s' with
        | piece :: pieces => (c :: piece) :: pieces
        | [] => [[c]]
        end
  end.

(** [n[0]]: the first code unit, or undefined. *)
Definition first (n : jsstring) : option JS.code_unit :=
  match n with
  | [] => None
  | c :: _ => Some c
  end.

(** [items.join('')]: an undefined item contributes nothing. *)
Fixpoint join (items : list (option JS.code_unit)) : jsstring :=
  match items with
  | [] => []
  | Some c :: items' => c :: join items'
  | None :: items' => join items'
  end.

Section Initials.

(** [String.prototype.toUpperCase] *)
Variable toUpperCase : jsstring -> jsstring.

(** The text before it is put in upper case. *)
Definition letters (fullName : jsstring) : jsstring :=
  join (map first (split 32%N fullName)).

Definition initials (fullName : jsstring) : jsstring :=
  toUpperCase (letters fullName).

End Initials.

(** The code units that begin a word: those that are no space and come
    first or after a space. *)
Fixpoint word_starts (after_space : bool) (s : jsstring) : jsstring :=
  match s with
  | [] => []
  | c :: s' =>
      if N.eqb c 32%N then word_starts true s'
      else if after_space then c :: word_starts false s'
      else word_starts false s'
  end.

End Avatar.

(** ** Vocabulary of further properties *)

Module Behaviour.

Section Vocabulary.

Import NotificationService.

Context {number : Type}.

(** The sockets a trace opens. *)
Fixpoint opened (tr : list (Effect number)) : nat :=
  match tr with
  | [] => 0
  | Io _ :: tr' => S (opened tr')
  | _ :: tr' => opened tr'
  end.

(** The sockets a trace closes. *)
Fixpoint closed (tr : list (Effect number)) : nat :=
  match tr with
  | [] => 0
  | SocketDisconnect _ :: tr' => S (closed tr')
  | _ :: tr' => closed tr'
  end.

(** The browser notifications of a trace, as (title, body, icon, tag). *)
Fixpoint browser_notifications (tr : list (Effect number))
  : list (jsstring * jsstring * jsstring * jsstring) :=
  match tr with
  | [] => []
  | NewNotification title body icon tag :: tr' =>
      (title, body, icon, tag) :: browser_notifications tr'
  | _ :: tr' => browser_notifications tr'
  end.

(** The responses among [ops] that are issued while the channel is open,
    when it is open or not, as [open] says, before [ops]. *)
Fixpoint responded (open : bool) (ops : list (Op number))
  : list DonorResponse.t :=
  match ops with
  | [] => []
  | Connect _ _ _ _ :: ops' => responded true ops'
  | Disconnect :: ops' => responded false ops'
  | RespondToBloodRequest requestId response userInfo :: ops' =>
      (if open then [DonorResponse.mk requestId response userInfo] else [])
        ++ responded open ops'
  | _ :: ops' => responded open ops'
  end.

(** [ops] calls the closure that unsubscribes [callback]. *)
Fixpoint unsubscribes (callback : Callback) (ops : list (Op number))
  : bool :=
  match ops with
  | [] => false
  | Unsubscribe c :: ops' => Nat.eqb c callback || unsubscribes callback ops'
  | _ :: ops' => unsubscribes callback ops'
  end.

(** [ops] calls [disconnect]. *)
Fixpoint disconnects (ops : list (Op number)) : bool :=
  match ops with
  | [] => false
  | Disconnect :: _ => true
  | _ :: ops' => disconnects ops'
  end.

(** The unread records of a list whose identifier is [notificationId]. *)
Fixpoint unread_with_id (notificationId : jsstring)
  (l : list (NotificationData.t number)) : nat :=
  match l with
  | [] => 0
  | n :: rest =>
      (if JS.eqb (NotificationData.id n) notificationId
          && negb (NotificationData.read n)
       then 1 else 0)
      + unread_with_id notificationId rest
  end.

(** The kind of record each event is turned into. *)
Definition kind_of (e : InboundEvent.t number) : NotificationType.t :=
  match e with
  | InboundEvent.blood_request_match _ => NotificationType.blood_request
  | InboundEvent.donation_accepted _ => NotificationType.donation_accepted
  | InboundEvent.request_fulfilled _ => NotificationType.request_fulfilled
  end.

(** A record carries the event it was made from, and its kind is that
    event's. *)
Definition well_kinded (n : NotificationData.t number) : Prop :=
  exists e,
    NotificationData.data n = Some e
    /\ NotificationData.type n = kind_of e.

(** The identifier of the request an event is about. *)
Definition source_id (e : InboundEvent.t number) : jsstring :=
  match e with
  | InboundEvent.blood_request_match data => BloodRequest.id data
  | InboundEvent.donation_accepted data => DonationAccepted.requestId data
  | InboundEvent.request_fulfilled data => RequestFulfilled.requestId data
  end.

(** The prefix of the identifiers of the records of a kind. *)
Definition prefix_of (k : NotificationType.t) : jsstring :=
  match k with
  | NotificationType.blood_request => JS.lit "req_"
  | NotificationType.donation_accepted => JS.lit "acc_"
  | NotificationType.request_fulfilled => JS.lit "ful_"
  end.

End Vocabulary.

(** A string neither starts nor ends with white space. *)
Definition tidy (s : jsstring) : Prop :=
  match s with
  | [] => True
  | c :: _ => JS.is_white_space c = false
  end
  /\ match rev s with
     | [] => True
     | c :: _ => JS.is_white_space c = false
     end.


End Behaviour.

(** ** Further sample data *)

Module Scenario.

(** The sample request as another hospital sends it. *)
Definition other_request : BloodRequest.t N :=
  BloodRequest.mk (JS.lit "r7") (JS.lit "AB+") Urgency.low
    (JS.lit "Mumbai") 40%N (JS.lit "2024-07-01")
    (PatientInfo.mk 7%N (JS.lit "M") (JS.lit "trauma"))
    (JS.lit "General Hospital") (JS.lit "555-0142").

(** A clinic's profile. *)
Definition clinic : UserProfile.t :=
  UserProfile.mk (JS.lit "u2") (JS.lit "desk@clinic.example")
    (JS.lit "City Clinic Desk") Role.clinic None
    (JS.lit "Mumbai") (JS.lit "555-0177") (JS.lit "2024-02-02")
    None (Some (JS.lit "Clinic")) (Some (JS.lit "City Clinic")).

(** A session: the donor connects and a request arrives. *)
Definition session : list (NotificationService.Op N) :=
  [NotificationService.Connect None (JS.lit "u1") (JS.lit "donor")
     Sample.donor;
   NotificationService.Receive (Sample.env 1001)
     (InboundEvent.blood_request_match Sample.request)].

(** What happens next: the clinic's profile connects, a record is marked
    read, a response is sent. *)
Definition later : list (NotificationService.Op N) :=
  [NotificationService.Connect None (JS.lit "u2") (JS.lit "clinic") clinic;
   NotificationService.MarkAsRead (JS.lit "req_r7_1000");
   NotificationService.RespondToBloodRequest (JS.lit "r7") Response.decline
     (DonorInfo.mk (JS.lit "u1") (JS.lit "Jane Doe") None None)].

(** An open form whose full name is three blanks. *)
Definition blank_form : ProfileSettings.t :=
  ProfileSettings.mk true false
    (FormData.mk (JS.lit "   ") (JS.lit "555-0101") (JS.lit "Pune")
       (JS.lit "O-") true [] []).

End Scenario.

(** ** Properties of the notification service *)

Section ServiceProperties.

Import NotificationService.

Context {number : Type}.
Variable number_to_string : number -> jsstring.

Local Abbreviation ND := (NotificationData.t number).
Local Abbreviation notification_of := (notification_of number_to_string).
Local Abbreviation receive := (receive number_to_string).
Local Abbreviation step := (step number_to_string).
Local Abbreviation run := (run number_to_string).

(** The calls [notifyListeners] makes when the list is [snapshot]. *)
Local Abbreviation calls subscribers snapshot :=
  (map (fun c : Callback => @ListenerCall number c snapshot) subscribers).

Lemma listener_calls_app (tr1 tr2 : list (Effect number)) :
  listener_calls (tr1 ++ tr2) = listener_calls tr1 ++ listener_calls tr2.
Proof.
  induction tr1 as [|e tr1 IH]; [reflexivity|].
  destruct e; simpl; rewrite IH; reflexivity.
Qed.

Lemma listener_calls_calls subscribers (snapshot : list ND) :
  listener_calls (calls subscribers snapshot)
  = map (fun c => (c, snapshot)) subscribers.
Proof.
  induction subscribers as [|c cs IH]; simpl; [|rewrite IH]; reflexivity.
Qed.

Lemma forEach_listeners (s : t number) subscribers :
  forEach subscribers
    (fun listener =>
       bind get (fun s' => emit (ListenerCall listener (notifications s'))))
    s
  = (tt, s, calls subscribers (notifications s)).
Proof.
  induction subscribers as [|c cs IH]; [reflexivity|].
  simpl. unfold bind at 1. simpl. rewrite IH. reflexivity.
Qed.

Lemma notifyListeners_run (s : t number) :
  notifyListeners s = (tt, s, calls (listeners s) (notifications s)).
Proof.
  unfold notifyListeners, bind at 1. simpl.
  rewrite forEach_listeners. reflexivity.
Qed.

Lemma addNotification_run (n : ND) (s : t number) :
  addNotification n s
  = (tt, mk (socket s) (n :: notifications s) (listeners s),
     calls (listeners s) (n :: notifications s)).
Proof.
  unfold addNotification, bind. simpl.
  rewrite notifyListeners_run. reflexivity.
Qed.

Lemma handler_state env e (s : t number) :
  state (handler number_to_string env e s)
  = mk (socket s) (notification_of env e :: notifications s) (listeners s).
Proof.
  unfold handler, bind. rewrite addNotification_run.
  unfold showBrowserNotification, showToastNotification.
  destruct (permission env), (NotificationData.type (notification_of env e));
    reflexivity.
Qed.

Lemma handler_listener_calls env e (s : t number) :
  listener_calls (trace (handler number_to_string env e s))
  = map (fun c => (c, notification_of env e :: notifications s))
      (listeners s).
Proof.
  unfold handler, bind. rewrite addNotification_run.
  unfold showBrowserNotification, showToastNotification.
  destruct (permission env), (NotificationData.type (notification_of env e));
    simpl; rewrite listener_calls_app, listener_calls_calls; simpl;
    apply app_nil_r.
Qed.

Lemma receive_connected env e (s : t number) :
  socket s <> None ->
  receive env e s = handler number_to_string env e s.
Proof.
  intros Hs. unfold NotificationService.receive, bind. simpl.
  destruct (socket s); [|congruence].
  destruct (handler number_to_string env e s) as [[[] s1] tr1].
  reflexivity.
Qed.

Lemma receive_closed env e (s : t number) :
  socket s = None -> receive env e s = (tt, s, []).
Proof.
  intros Hs. unfold NotificationService.receive, bind. simpl.
  rewrite Hs. reflexivity.
Qed.

Lemma run_cons op ops (s : t number) :
  run (op :: ops) s
  = (tt, state (run ops (state (step op s))),
     trace (step op s) ++ trace (run ops (state (step op s)))).
Proof.
  cbn [NotificationService.run]. unfold bind.
  destruct (step op s) as [[[] s1] tr1]. cbn [state trace fst snd].
  destruct (run ops s1) as [[[] s2] tr2]. reflexivity.
Qed.

Lemma run_app ops1 ops2 (s : t number) :
  run (ops1 ++ ops2) s
  = (tt, state (run ops2 (state (run ops1 s))),
     trace (run ops1 s) ++ trace (run ops2 (state (run ops1 s)))).
Proof.
  revert s. induction ops1 as [|op ops1 IH]; intros s.
  - cbn. destruct (run ops2 s) as [[[] s2] tr2]. reflexivity.
  - rewrite <- app_comm_cons, !run_cons, IH. simpl.
    rewrite app_assoc. reflexivity.
Qed.

(** C1.  A connected service that handles a sequence of inbound events
    ends with one record per event in front of the records it had, the
    newest first; its list is as long as the number of events when it
    started empty; and after each insertion every subscriber was called, in
    subscription order, with the whole list as it then was.  The channel
    and the subscribers are left as they were. *)
Theorem receive_sequence_prepends_and_notifies :
  forall (evs : list (Env number * InboundEvent.t number)) (s : t number),
    socket s <> None ->
    let r := run (Spec.arrivals evs) s in
    let records := map (fun a => notification_of (fst a) (snd a)) evs in
    notifications (state r) = rev records ++ notifications s
    /\ length (notifications (state r))
       = length evs + length (notifications s)
    /\ (notifications s = [] ->
        length (notifications (state r)) = length evs)
    /\ listener_calls (trace r)
       = Spec.deliveries (listeners s) (notifications s) records
    /\ listeners (state r) = listeners s
    /\ socket (state r) = socket s.
Proof.
  intros evs s Hs r records.
  assert (H : notifications (state r) = rev records ++ notifications s
              /\ listener_calls (trace r)
                 = Spec.deliveries (listeners s) (notifications s) records
              /\ listeners (state r) = listeners s
              /\ socket (state r) = socket s).
  { subst r records. revert s Hs.
    induction evs as [|[env e] evs IH]; intros s Hs.
    - repeat split.
    - unfold Spec.arrivals in *. cbn [map fst snd].
      rewrite run_cons. cbn [state trace fst snd].
      assert (Hstep : step (Receive env e) s
                      = handler number_to_string env e s)
        by (apply receive_connected; exact Hs).
      rewrite Hstep, listener_calls_app, handler_listener_calls.
      pose proof (handler_state env e s) as Hst.
      set (s1 := state (handler number_to_string env e s)) in *.
      destruct (IH s1) as (Hn & Hc & Hl & Hk).
      { rewrite Hst. exact Hs. }
      rewrite Hn, Hc, Hl, Hk, Hst. cbn [notifications listeners socket].
      repeat split.
      + cbn [rev]. rewrite <- app_assoc. reflexivity. }
  destruct H as (Hn & Hc & Hl & Hk).
  assert (Hlen : length (notifications (state r))
                 = length evs + length (notifications s)).
  { rewrite Hn, length_app, length_rev. subst records.
    rewrite length_map. reflexivity. }
  repeat split; try assumption.
  intros Hempty. rewrite Hlen, Hempty. simpl. lia.
Qed.

(** *** markAsRead *)

(** The function [markAsRead] maps over the list. *)
Local Abbreviation mark notificationId :=
  (fun n : ND =>
     if JS.eqb (NotificationData.id n) notificationId
     then NotificationData.with_read_true n else n).

Lemma markAsRead_run notificationId (s : t number) :
  markAsRead notificationId s
  = (tt,
     mk (socket s) (map (mark notificationId) (notifications s))
       (listeners s),
     calls (listeners s) (map (mark notificationId) (notifications s))).
Proof.
  unfold markAsRead, bind. simpl. rewrite notifyListeners_run. reflexivity.
Qed.

Lemma mark_mark notificationId (n : ND) :
  mark notificationId (mark notificationId n) = mark notificationId n.
Proof.
  cbv beta. destruct (JS.eqb (NotificationData.id n) notificationId) eqn:E.
  - change (NotificationData.id (NotificationData.with_read_true n))
      with (NotificationData.id n).
    rewrite E. reflexivity.
  - rewrite E. reflexivity.
Qed.

(** [markAsRead] with an identifier no record has leaves the list as it
    is. *)
Lemma markAsRead_absent notificationId (s : t number) :
  forallb (fun n => negb (JS.eqb (NotificationData.id n) notificationId))
    (notifications s) = true ->
  notifications (state (markAsRead notificationId s)) = notifications s.
Proof.
  rewrite markAsRead_run. cbn [state fst snd notifications].
  induction (notifications s) as [|n l IH]; [reflexivity|].
  simpl. intros H. apply andb_true_iff in H. destruct H as [Hn Hl].
  apply negb_true_iff in Hn. rewrite Hn, IH by exact Hl. reflexivity.
Qed.

(** After [markAsRead] every record with the identifier is read. *)
Lemma markAsRead_marks notificationId (s : t number) n :
  In n (notifications (state (markAsRead notificationId s))) ->
  JS.eqb (NotificationData.id n) notificationId = true ->
  NotificationData.read n = true.
Proof.
  rewrite markAsRead_run. cbn [state fst snd notifications].
  intros Hin Hid. apply in_map_iff in Hin. destruct Hin as (o & <- & _).
  cbv beta in *.
  destruct (JS.eqb (NotificationData.id o) notificationId) eqn:E;
    [reflexivity|congruence].
Qed.

(** C2.  A second [markAsRead] with the same identifier leaves the service
    in the state the first one left it in, and hands the subscribers the
    list the first one handed them. *)
Theorem markAsRead_idempotent :
  forall (notificationId : jsstring) (s : t number),
    let once := markAsRead notificationId s in
    let twice := markAsRead notificationId (state once) in
    state twice = state once
    /\ notifications (state twice) = notifications (state once)
    /\ trace twice = trace once
    /\ state (run [MarkAsRead notificationId; MarkAsRead notificationId] s)
       = state (run [MarkAsRead notificationId] s).
Proof.
  intros i s once twice.
  assert (H : twice = once).
  { subst twice once. rewrite !markAsRead_run.
    cbn [state fst snd socket notifications listeners].
    rewrite map_map.
    rewrite (map_ext _ _ (mark_mark i)). reflexivity. }
  rewrite H. repeat split.
  rewrite !run_cons. cbn [NotificationService.step NotificationService.run].
  fold once. fold twice. rewrite H. reflexivity.
Qed.

(** *** getUnreadCount *)

Lemma unread_filter (snapshot : list ND) :
  length (filter (fun n => negb (NotificationData.read n)) snapshot)
  = Spec.unread snapshot.
Proof.
  induction snapshot as [|n rest IH]; [reflexivity|].
  simpl. destruct (NotificationData.read n); simpl; rewrite IH; reflexivity.
Qed.

(** C8.  In every state [getUnreadCount] returns the number of records of
    the snapshot [getNotifications] returns whose read flag is false, and
    neither changes the service nor calls anything. *)
Theorem getUnreadCount_counts_unread :
  forall s : t number,
    result (getUnreadCount s) = Spec.unread (result (getNotifications s))
    /\ getUnreadCount s = (Spec.unread (notifications s), s, [])
    /\ getNotifications s = (notifications s, s, []).
Proof.
  intros s. unfold getUnreadCount, getNotifications, bind, result. simpl.
  rewrite unread_filter. repeat split.
Qed.

(** C10.  The record a handler builds for an event is unread, whatever the
    event kind; so when a connected service receives an event, its unread
    count goes up by one. *)
Theorem received_record_is_unread :
  forall env e (s : t number),
    socket s <> None ->
    NotificationData.read (notification_of env e) = false
    /\ result (getUnreadCount (state (receive env e s)))
       = S (result (getUnreadCount s)).
Proof.
  intros env e s Hs.
  assert (Hr : NotificationData.read (notification_of env e) = false)
    by (destruct e; reflexivity).
  split; [exact Hr|].
  rewrite receive_connected, handler_state by exact Hs.
  unfold getUnreadCount, bind, result. simpl. rewrite Hr. reflexivity.
Qed.

(** *** respondToBloodRequest, connect, disconnect *)

(** C4.  [respondToBloodRequest] emits one [donor_response] carrying its
    three arguments on the open socket and nothing else, and does nothing
    at all when no socket is open; it never changes the service.  The
    accept handler of the notification center so emits one event whose
    response is accept and whose [donorInfo] holds the profile's id, full
    name, phone number and blood type. *)
Theorem respondToBloodRequest_emits_once :
  forall requestId response userInfo userProfile requestData (s : t number),
    respondToBloodRequest requestId response userInfo s
    = (tt, s,
       match socket s with
       | Some sock =>
           [SocketEmit sock (JS.lit "donor_response")
              (DonorResponse.mk requestId response userInfo)]
       | None => []
       end)
    /\ NotificationCenter.handleAcceptBloodRequest userProfile requestData s
       = (tt, s,
          match socket s with
          | Some sock =>
              [SocketEmit sock (JS.lit "donor_response")
                 (DonorResponse.mk (BloodRequest.id requestData)
                    Response.accept
                    (DonorInfo.mk (UserProfile.id userProfile)
                       (UserProfile.fullName userProfile)
                       (Some (UserProfile.phoneNumber userProfile))
                       (UserProfile.bloodType userProfile)))]
          | None => []
          end)
    /\ length (emitted (trace (NotificationCenter.handleAcceptBloodRequest
                                 userProfile requestData s)))
       = match socket s with Some _ => 1 | None => 0 end.
Proof.
  intros requestId response userInfo userProfile requestData s.
  assert (H : forall a b c,
             respondToBloodRequest a b c s
             = (tt, s,
                match socket s with
                | Some sock =>
                    [SocketEmit sock (JS.lit "donor_response")
                       (DonorResponse.mk a b c)]
                | None => []
                end)).
  { intros a b c. unfold respondToBloodRequest, bind. simpl.
    destruct (socket s); reflexivity. }
  unfold NotificationCenter.handleAcceptBloodRequest.
  rewrite !H. repeat split. destruct (socket s); reflexivity.
Qed.

(** C5.  With a socket open, [connect] returns at once, whatever its
    arguments: the service is as it was (same socket, same list, same
    subscribers) and nothing was called, so no socket was opened and no
    listener registered. *)
Theorem connect_when_open_does_nothing :
  forall env_url userId userRole userProfile (s : t number),
    socket s <> None ->
    connect env_url userId userRole userProfile s = (tt, s, []).
Proof.
  intros env_url userId userRole userProfile s Hs.
  unfold connect, bind. simpl. destruct (socket s); [reflexivity|congruence].
Qed.

Lemma connect_when_closed env_url userId userRole userProfile (s : t number) :
  socket s = None ->
  let sock :=
    Socket.mk (JS.or_else env_url (JS.lit "http://localhost:5000"))
      (Auth.mk userId userRole (UserProfile.bloodType userProfile)
         (UserProfile.location userProfile)) in
  connect env_url userId userRole userProfile s
  = (tt, mk (Some sock) (notifications s) (listeners s),
     [Io sock;
      SocketOn sock (JS.lit "connect");
      SocketOn sock (JS.lit "blood_request_match");
      SocketOn sock (JS.lit "donation_accepted");
      SocketOn sock (JS.lit "request_fulfilled")]).
Proof.
  intros Hs sock. unfold connect, bind. simpl. rewrite Hs. reflexivity.
Qed.

Lemma disconnect_run (s : t number) :
  disconnect s
  = (tt,
     match socket s with
     | Some _ => mk None (notifications s) (listeners s)
     | None => s
     end,
     match socket s with
     | Some sock => [SocketDisconnect sock]
     | None => []
     end).
Proof.
  unfold disconnect, bind. simpl. destruct (socket s); reflexivity.
Qed.

(** C9.  [disconnect] closes the open socket, once, and makes nothing else
    happen; with no socket open it does nothing.  Afterwards no socket is
    held, the list and the subscribers are what they were, and a [connect]
    opens a new socket and registers its listeners. *)
Theorem disconnect_closes_and_keeps_list :
  forall (s : t number) env_url userId userRole userProfile,
    let s' := state (disconnect s) in
    trace (disconnect s)
    = match socket s with
      | Some sock => [SocketDisconnect sock]
      | None => []
      end
    /\ match socket s with Some _ => True | None => s' = s end
    /\ socket s' = None
    /\ notifications s' = notifications s
    /\ listeners s' = listeners s
    /\ (let sock :=
          Socket.mk (JS.or_else env_url (JS.lit "http://localhost:5000"))
            (Auth.mk userId userRole (UserProfile.bloodType userProfile)
               (UserProfile.location userProfile)) in
        connect env_url userId userRole userProfile s'
        = (tt, mk (Some sock) (notifications s) (listeners s),
           [Io sock;
            SocketOn sock (JS.lit "connect");
            SocketOn sock (JS.lit "blood_request_match");
            SocketOn sock (JS.lit "donation_accepted");
            SocketOn sock (JS.lit "request_fulfilled")])).
Proof.
  intros s env_url userId userRole userProfile s'.
  assert (Hk : socket s' = None /\ notifications s' = notifications s
               /\ listeners s' = listeners s).
  { subst s'. rewrite disconnect_run. cbn [state fst snd].
    destruct (socket s) eqn:E; cbn; auto. }
  destruct Hk as (Hk & Hn & Hl).
  repeat split; try assumption.
  - rewrite disconnect_run. reflexivity.
  - subst s'. rewrite disconnect_run. cbn [state fst snd].
    destruct (socket s); reflexivity.
  - rewrite (connect_when_closed _ _ _ _ _ Hk). cbn zeta.
    rewrite Hn, Hl. reflexivity.
Qed.

(** *** What one operation does to the subscribers and to the list *)

Lemma in_listener_calls (tr : list (Effect number)) c snapshot :
  In (ListenerCall c snapshot) tr <-> In (c, snapshot) (listener_calls tr).
Proof.
  induction tr as [|e tr IH]; [reflexivity|].
  destruct e; simpl; rewrite <- IH;
    try (split; [intros [H|H]; [discriminate|exact H] | auto]).
  split; (intros [H|H]; [left; congruence | right; exact H]).
Qed.

(** What an operation leaves of the three fields, and whom it calls. *)
Lemma step_run op (s : t number) :
  let r := step op s in
  (listeners (state r)
   = match op with
     | Subscribe c => listeners s ++ [c]
     | Unsubscribe c => filter (fun l => negb (Nat.eqb l c)) (listeners s)
     | _ => listeners s
     end)
  /\ (notifications (state r)
      = match op with
        | Receive env e =>
            match socket s with
            | Some _ => notification_of env e :: notifications s
            | None => notifications s
            end
        | MarkAsRead i => map (mark i) (notifications s)
        | _ => notifications s
        end)
  /\ (listener_calls (trace r)
      = match op with
        | Receive env e =>
            match socket s with
            | Some _ =>
                map (fun c => (c, notification_of env e :: notifications s))
                  (listeners s)
            | None => []
            end
        | MarkAsRead i =>
            map (fun c => (c, map (mark i) (notifications s))) (listeners s)
        | _ => []
        end).
Proof.
  destruct op; cbn [NotificationService.step]; cbv zeta.
  - unfold connect, bind. simpl. destruct (socket s); repeat split.
  - unfold connected, on_connect, bind. simpl.
    destruct (socket s); repeat split.
  - destruct (socket s) eqn:E.
    + rewrite receive_connected by congruence.
      rewrite handler_state, handler_listener_calls. repeat split.
    + rewrite receive_closed by exact E. repeat split.
  - unfold handleNotificationClick.
    destruct (NotificationData.type notification); repeat split.
  - unfold respondToBloodRequest, bind. simpl.
    destruct (socket s); repeat split.
  - rewrite markAsRead_run. cbn [state trace fst snd notifications listeners].
    rewrite listener_calls_calls. repeat split.
  - repeat split.
  - repeat split.
  - repeat split.
  - repeat split.
  - rewrite disconnect_run. cbn [state trace fst snd].
    destruct (socket s); repeat split.
Qed.

Lemma step_socket op (s : t number) :
  is_open (state (step op s))
  = match op with
    | Connect _ _ _ _ => true
    | Disconnect => false
    | _ => is_open s
    end.
Proof.
  unfold is_open.
  destruct op; cbn [NotificationService.step]; try reflexivity.
  - unfold connect, bind. simpl.
    destruct (socket s) eqn:E; cbn; rewrite ?E; reflexivity.
  - unfold connected, on_connect, bind. simpl.
    destruct (socket s) eqn:E; cbn; rewrite ?E; reflexivity.
  - destruct (socket s) eqn:E.
    + rewrite receive_connected, handler_state by congruence.
      cbn [socket]. rewrite E. reflexivity.
    + rewrite receive_closed by exact E. cbn [state fst snd].
      rewrite E. reflexivity.
  - unfold handleNotificationClick.
    destruct (NotificationData.type notification); reflexivity.
  - unfold respondToBloodRequest, bind. simpl.
    destruct (socket s) eqn:E; cbn; rewrite ?E; reflexivity.
  - rewrite markAsRead_run. reflexivity.
  - rewrite disconnect_run. cbn [state fst snd].
    destruct (socket s) eqn:E; cbn; rewrite ?E; reflexivity.
Qed.

(** Along any operations, the list grows by one record for each event
    that arrives while the channel is open, and by nothing else. *)
Lemma run_length ops :
  forall s : t number,
    length (notifications (state (run ops s)))
    = Spec.received (is_open s) ops + length (notifications s).
Proof.
  induction ops as [|op ops IH]; intros s; [reflexivity|].
  rewrite run_cons. cbn [state fst snd]. rewrite IH, step_socket.
  destruct (step_run op s) as (_ & Hn & _). rewrite Hn.
  destruct op; try reflexivity.
  - unfold is_open. cbn [Spec.received].
    destruct (socket s); simpl; lia.
  - cbn [Spec.received]. rewrite length_map. reflexivity.
Qed.

(** Whoever is called by the operations [ops] was subscribed before them
    or is subscribed by one of them. *)
Lemma run_calls_subscribed c ops :
  Spec.resubscribes c ops = false ->
  forall (s : t number) snapshot,
    ~ In c (listeners s) ->
    ~ In (ListenerCall c snapshot) (trace (run ops s)).
Proof.
  induction ops as [|op ops IH]; intros Hre s snapshot Hc.
  - simpl. tauto.
  - rewrite run_cons. cbn [trace snd]. rewrite in_app_iff.
    destruct (step_run op s) as (Hl & _ & Hcalls).
    intros [Hin|Hin].
    + apply in_listener_calls in Hin. rewrite Hcalls in Hin.
      destruct op; try (destruct (socket s)); try contradiction;
        apply in_map_iff in Hin; destruct Hin as (c' & Heq & Hin);
        inversion Heq; subst; contradiction.
    + revert Hin. apply IH.
      * destruct op; try exact Hre.
        simpl in Hre. apply orb_false_iff in Hre. tauto.
      * rewrite Hl. destruct op; try exact Hc.
        -- simpl in Hre. apply orb_false_iff in Hre.
           destruct Hre as [Hne _]. apply Nat.eqb_neq in Hne.
           rewrite in_app_iff. simpl. intros [H|[H|[]]]; [tauto|congruence].
        -- rewrite filter_In. tauto.
Qed.

(** C3.  The closure [subscribe(c)] returns, run in any later state,
    leaves in the subscriber list exactly the entries that are not [c], in
    their order: every registration of [c] is gone, nobody else is touched,
    and the channel and the list are as they were.  From then on, as long
    as [c] is not subscribed again, no operation calls [c]: neither an
    arriving event nor [markAsRead]. *)
Theorem unsubscribe_stops_deliveries :
  forall (c : Callback) (s0 s : t number) (ops : list (Op number)),
    Spec.resubscribes c ops = false ->
    let unsub := result (subscribe c s0) in
    let s' := state (unsub s) in
    In c (listeners (state (subscribe c s0)))
    /\ listeners s' = filter (fun l => negb (Nat.eqb l c)) (listeners s)
    /\ ~ In c (listeners s')
    /\ (forall d, In d (listeners s') <-> In d (listeners s) /\ d <> c)
    /\ socket s' = socket s
    /\ notifications s' = notifications s
    /\ trace (unsub s) = []
    /\ (forall snapshot,
          ~ In (ListenerCall c snapshot) (trace (run ops s'))).
Proof.
  intros c s0 s ops Hre unsub s'.
  assert (Hnot : ~ In c (listeners s')).
  { subst s' unsub. cbn. rewrite filter_In, Nat.eqb_refl. simpl.
    intros [_ H]. discriminate. }
  repeat split; try assumption.
  - cbn. rewrite in_app_iff. simpl. tauto.
  - subst s' unsub. cbn in H. apply filter_In in H. tauto.
  - subst s' unsub. cbn in H. apply filter_In in H. destruct H as [_ H].
    intros ->. rewrite Nat.eqb_refl in H. discriminate.
  - intros [Hin Hne]. subst s' unsub. cbn. rewrite filter_In.
    split; [exact Hin|]. apply negb_true_iff, Nat.eqb_neq. exact Hne.
  - intros snapshot. apply run_calls_subscribed; assumption.
Qed.

(** *** The read flag *)

Lemma aged_le (o n : ND) :
  Spec.aged o n ->
  Bool.le (NotificationData.read o) (NotificationData.read n).
Proof.
  intros [->| ->].
  - destruct (NotificationData.read o); simpl; auto.
  - destruct (NotificationData.read o); simpl; auto.
Qed.

Lemma aged_trans (a b c : ND) :
  Spec.aged a b -> Spec.aged b c -> Spec.aged a c.
Proof.
  unfold Spec.aged. intros [->| ->] [->| ->]; auto.
Qed.

Lemma aged_all_le (old older : list ND) :
  Forall2 Spec.aged old older ->
  Forall2
    (fun o n => Bool.le (NotificationData.read o) (NotificationData.read n))
    old older.
Proof.
  induction 1; constructor; auto using aged_le.
Qed.

Lemma aged_all_refl (l : list ND) : Forall2 Spec.aged l l.
Proof.
  induction l; constructor; auto. left. reflexivity.
Qed.

Lemma aged_all_trans (l1 l2 l3 : list ND) :
  Forall2 Spec.aged l1 l2 -> Forall2 Spec.aged l2 l3 ->
  Forall2 Spec.aged l1 l3.
Proof.
  intros H12. revert l3.
  induction H12 as [|a b l1 l2 Hab _ IH]; intros l3 H23;
    inversion H23; subst; constructor; eauto using aged_trans.
Qed.

Lemma aged_all_mark i (l : list ND) : Forall2 Spec.aged l (map (mark i) l).
Proof.
  induction l as [|n l IH]; simpl; constructor; auto.
  destruct (JS.eqb (NotificationData.id n) i); [right|left]; reflexivity.
Qed.

Lemma evolves_intro (old fresh older : list ND) :
  Forall2 Spec.aged old older -> Spec.evolves old (fresh ++ older).
Proof.
  intros H. exists fresh, older. auto using aged_all_le.
Qed.

Lemma evolves_trans (l1 l2 l3 : list ND) :
  Spec.evolves l1 l2 -> Spec.evolves l2 l3 -> Spec.evolves l1 l3.
Proof.
  intros (f1 & o1 & -> & H1 & _) (f2 & o2 & -> & H2 & _).
  apply Forall2_app_inv_l in H2.
  destruct H2 as (a & b & _ & Hb & ->).
  rewrite app_assoc. apply evolves_intro.
  eapply aged_all_trans; eassumption.
Qed.

Lemma step_evolves op (s : t number) :
  Spec.evolves (notifications s) (notifications (state (step op s))).
Proof.
  destruct (step_run op s) as (_ & Hn & _). rewrite Hn.
  destruct op; try (apply (evolves_intro []), aged_all_refl).
  - destruct (socket s).
    + apply (evolves_intro [notification_of env e]), aged_all_refl.
    + apply (evolves_intro []), aged_all_refl.
  - apply (evolves_intro []), aged_all_mark.
Qed.

(** C7.  Whatever operations run on the service (connect, an arriving
    event, markAsRead, respondToBloodRequest, subscribe and unsubscribe,
    the getters, disconnect), the list afterwards is the list before with
    new records in front, each old record still in its place and either
    unchanged or marked read: the read flag of a record never goes from
    true to false. *)
Theorem read_flag_is_monotone :
  forall (ops : list (Op number)) (s : t number),
    Spec.evolves (notifications s) (notifications (state (run ops s))).
Proof.
  induction ops as [|op ops IH]; intros s.
  - apply (evolves_intro []), aged_all_refl.
  - rewrite run_cons. cbn [state fst snd].
    eapply evolves_trans; [apply step_evolves | apply IH].
Qed.

End ServiceProperties.

(** ** Properties of the profile form *)

Section TrimProperties.

Lemma trimStart_split (s : jsstring) :
  exists ws, s = ws ++ JS.trimStart s /\ forallb JS.is_white_space ws = true.
Proof.
  induction s as [|c s (ws & Hs & Hws)].
  - exists []. split; reflexivity.
  - simpl. destruct (JS.is_white_space c) eqn:E.
    + exists (c :: ws). simpl. rewrite E, Hws. split; [congruence|reflexivity].
    + exists []. split; reflexivity.
Qed.

Lemma trimStart_head (s : jsstring) :
  match JS.trimStart s with
  | [] => True
  | c :: _ => JS.is_white_space c = false
  end.
Proof.
  induction s as [|c s IH]; simpl; [exact I|].
  destruct (JS.is_white_space c) eqn:E; [exact IH|exact E].
Qed.

Lemma forallb_rev {A} (p : A -> bool) (l : list A) :
  forallb p (rev l) = forallb p l.
Proof.
  induction l as [|a l IH]; [reflexivity|].
  simpl. rewrite forallb_app, IH. simpl. rewrite andb_true_r.
  apply andb_comm.
Qed.

(** [trim] cuts a run of white space off each end of the string, and
    nothing else. *)
Lemma trim_split (s : jsstring) :
  exists before after,
    s = before ++ JS.trim s ++ after
    /\ forallb JS.is_white_space before = true
    /\ forallb JS.is_white_space after = true.
Proof.
  destruct (trimStart_split s) as (before & Hs & Hb).
  destruct (trimStart_split (rev (JS.trimStart s))) as (ws & Hr & Hws).
  exists before, (rev ws). repeat split.
  - rewrite Hs at 1. f_equal. unfold JS.trim, JS.trimEnd.
    rewrite <- rev_app_distr, <- Hr, rev_involutive. reflexivity.
  - exact Hb.
  - rewrite forallb_rev. exact Hws.
Qed.

(** What [trim] leaves neither starts nor ends with white space. *)
Lemma trim_ends (s : jsstring) :
  match JS.trim s with
  | [] => True
  | c :: _ => JS.is_white_space c = false
  end
  /\ match rev (JS.trim s) with
     | [] => True
     | c :: _ => JS.is_white_space c = false
     end.
Proof.
  unfold JS.trim, JS.trimEnd. rewrite rev_involutive.
  split; [|apply trimStart_head].
  pose proof (trimStart_head s) as Hh.
  pose proof (trimStart_split (rev (JS.trimStart s))) as (ws & Hr & _).
  apply (f_equal (@rev _)) in Hr.
  rewrite rev_involutive, rev_app_distr in Hr.
  destruct (rev (JS.trimStart (rev (JS.trimStart s)))) as [|c r]; [exact I|].
  rewrite Hr in Hh. exact Hh.
Qed.

End TrimProperties.

Section ProfileProperties.

Import ProfileSettings.

(** Runs [handleSave] through each way the update call and the refresh
    callback can end. *)
Ltac save_cases outcome refresh_throws :=
  unfold handleSave, try_catch_finally, profile_update, onProfileUpdate,
    bind;
  destruct outcome as [[?e|]|?e]; simpl;
  try match goal with |- context [JS.truthy ?e] => destruct (JS.truthy e) end;
  simpl; destruct refresh_throws; simpl.

(** C6.  [handleSave] calls the update once, with the draft's full name,
    phone number and location trimmed; blood type and availability are in
    the payload exactly for a donor, the trimmed organisation name and the
    organisation type exactly for a clinic.  When the update fails the
    editing flag is what it was, so an open form stays open, the refresh
    callback is not called and one error message is shown; otherwise the
    form leaves edit mode and the refresh callback is called once.  A full
    name typed as "  Jane Doe  " goes out as "Jane Doe". *)
Theorem handleSave_trims_and_updates_once :
  forall userProfile outcome refresh_throws (s : t) phone loc bt av on ot,
    let r := handleSave userProfile outcome refresh_throws s in
    let s' := snd (fst r) in
    let tr := snd r in
    let draft := formData s in
    let u := updateData userProfile draft in
    updates tr = [u]
    /\ UpdateData.fullName u = JS.trim (FormData.fullName draft)
    /\ UpdateData.phoneNumber u = JS.trim (FormData.phoneNumber draft)
    /\ UpdateData.location u = JS.trim (FormData.location draft)
    /\ (UpdateData.bloodType u, UpdateData.isAvailable u)
       = match UserProfile.role userProfile with
         | Role.donor =>
             (Some (FormData.bloodType draft),
              Some (FormData.isAvailable draft))
         | _ => (None, None)
         end
    /\ (UpdateData.organizationName u, UpdateData.organizationType u)
       = match UserProfile.role userProfile with
         | Role.clinic =>
             (Some (JS.trim (FormData.organizationName draft)),
              Some (FormData.organizationType draft))
         | _ => (None, None)
         end
    /\ (if failed outcome
        then isEditing s' = isEditing s
             /\ refreshes tr = 0
             /\ length (error_toasts tr) = 1
        else isEditing s' = false /\ refreshes tr = 1)
    /\ isLoading s' = false
    /\ formData s' = draft
    /\ map UpdateData.fullName
         (updates
            (snd (handleSave userProfile outcome refresh_throws
                    (mk (isEditing s) (isLoading s)
                       (FormData.mk (JS.lit "  Jane Doe  ") phone loc bt av
                          on ot)))))
       = [JS.lit "Jane Doe"].
Proof.
  intros userProfile outcome refresh_throws s phone loc bt av on ot.
  cbv zeta.
  assert (Hrun : forall s0,
            updates (snd (handleSave userProfile outcome refresh_throws s0))
            = [updateData userProfile (formData s0)]).
  { intros s0. save_cases outcome refresh_throws; reflexivity. }
  split; [apply Hrun|].
  do 3 (split; [reflexivity|]).
  split; [unfold updateData; destruct (UserProfile.role userProfile);
          reflexivity|].
  split; [unfold updateData; destruct (UserProfile.role userProfile);
          reflexivity|].
  split; [|split; [|split]].
  - save_cases outcome refresh_throws; auto.
  - save_cases outcome refresh_throws; reflexivity.
  - save_cases outcome refresh_throws; reflexivity.
  - rewrite Hrun. reflexivity.
Qed.

(** [handleCancel] puts the committed values back into the draft and
    leaves edit mode, without calling anything. *)
Lemma handleCancel_restores userProfile (s : t) :
  handleCancel userProfile s
  = (inl tt, mk false (isLoading s) (committed userProfile), []).
Proof. reflexivity. Qed.

(** The sample donor saves a draft whose name has blanks around it and the
    update reports an error: one call, with the name trimmed and the donor
    fields in it, and the form still open. *)
Example save_failed_example :
  let s := mk true false (committed Sample.donor) in
  let r := handleSave Sample.donor (Resolved (Some (JS.lit "offline")))
             None s in
  snd r
  = [ProfileUpdate
       (UpdateData.mk (JS.lit "Jane Doe") (JS.lit "555-0101")
          (JS.lit "Pune") (Some (JS.lit "O-")) (Some true) None None);
     ConsoleError (JS.lit "Error updating profile:")
       (Thrown.mk (Some (JS.lit "offline")));
     ToastError (JS.lit "offline")]
  /\ snd (fst r) = s.
Proof. split; reflexivity. Qed.

End ProfileProperties.

(** ** The properties at the sample data *)

Section Witnesses.

Import NotificationService.

(** Three events on the sample service: four records, the newest first. *)
Lemma receive_sequence_witness :
  socket Sample.service <> None
  /\ length (notifications
               (state (run Sample.decimal (Spec.arrivals Sample.events)
                         Sample.service)))
     = 4
  /\ map (fun n => NotificationData.type n)
       (notifications
          (state (run Sample.decimal (Spec.arrivals Sample.events)
                    Sample.service)))
     = [NotificationType.request_fulfilled;
        NotificationType.donation_accepted;
        NotificationType.blood_request;
        NotificationType.blood_request].
Proof.
  assert (H : socket Sample.service <> None) by discriminate.
  split; [exact H|].
  destruct (receive_sequence_prepends_and_notifies Sample.decimal
              Sample.events Sample.service H) as (Hn & Hlen & _).
  split; [exact Hlen|].
  rewrite Hn. reflexivity.
Defined.

(** Subscriber 1 of the sample service unsubscribes; the three events and
    a [markAsRead] that follow call subscriber 2 only. *)
Lemma unsubscribe_witness :
  Spec.resubscribes 1
    (Spec.arrivals Sample.events ++ [MarkAsRead (JS.lit "req_r7_1000")])
  = false
  /\ listeners (state (unsubscribe 1 Sample.service)) = [2]
  /\ forall snapshot,
       ~ In (ListenerCall 1 snapshot)
           (trace (run Sample.decimal
                     (Spec.arrivals Sample.events
                        ++ [MarkAsRead (JS.lit "req_r7_1000")])
                     (state (unsubscribe 1 Sample.service)))).
Proof.
  assert (H : Spec.resubscribes 1
                (Spec.arrivals Sample.events
                   ++ [MarkAsRead (JS.lit "req_r7_1000")])
              = false) by reflexivity.
  split; [exact H|].
  destruct (unsubscribe_stops_deliveries Sample.decimal 1
              NotificationService.new Sample.service _ H)
    as (_ & Hl & _ & _ & _ & _ & _ & Hcalls).
  split; [exact Hl | exact Hcalls].
Defined.

(** A second [connect] on the sample service. *)
Lemma connect_when_open_witness :
  socket Sample.service <> None
  /\ connect None (JS.lit "u2") (JS.lit "patient") Sample.donor
       Sample.service
     = (tt, Sample.service, []).
Proof.
  assert (H : socket Sample.service <> None) by discriminate.
  split; [exact H|].
  exact (connect_when_open_does_nothing None (JS.lit "u2")
           (JS.lit "patient") Sample.donor Sample.service H).
Defined.

(** The sample service has one unread record; an event makes it two. *)
Lemma received_record_witness :
  socket Sample.service <> None
  /\ result (getUnreadCount
               (state (receive Sample.decimal (Sample.env 1001)
                         (InboundEvent.blood_request_match Sample.request)
                         Sample.service)))
     = 2.
Proof.
  assert (H : socket Sample.service <> None) by discriminate.
  split; [exact H|].
  destruct (received_record_is_unread Sample.decimal (Sample.env 1001)
              (InboundEvent.blood_request_match Sample.request)
              Sample.service H)
    as (_ & Hcount).
  exact Hcount.
Defined.

(** A critical request for O- blood three kilometres away: the record's
    title reads CRITICAL and its payload holds the distance. *)
Example critical_request_record :
  let n := blood_request_notification Sample.decimal (Sample.env 1001)
             Sample.request in
  NotificationData.title n
  = ([55358; 56952]%N ++ JS.lit " CRITICAL Blood Request")
  /\ NotificationData.message n
     = JS.lit "O- blood needed at City Hospital (3km away)"
  /\ NotificationData.id n = JS.lit "req_r7_1001"
  /\ NotificationData.data n
     = Some (InboundEvent.blood_request_match Sample.request)
  /\ BloodRequest.distance Sample.request = 3%N.
Proof. repeat split. Qed.

(** A session: connect, two subscribers, an event, the first subscriber
    leaves, a second event, the first record is marked read. *)
Example session_trace :
  let ops :=
    [Connect None (JS.lit "u1") (JS.lit "donor") Sample.donor;
     Subscribe 1; Subscribe 2;
     Receive (Sample.env 1001)
       (InboundEvent.blood_request_match Sample.request);
     Unsubscribe 1;
     Receive (Sample.env 1002)
       (InboundEvent.request_fulfilled
          (RequestFulfilled.mk (JS.lit "r7")));
     MarkAsRead (JS.lit "req_r7_1001")] in
  let r := run Sample.decimal ops NotificationService.new in
  map (fun c => (fst c, length (snd c))) (listener_calls (trace r))
  = [(1, 1); (2, 1); (2, 2); (2, 2)]
  /\ map (fun n => NotificationData.read n) (notifications (state r))
     = [false; true]
  /\ listeners (state r) = [2]
  /\ result (getUnreadCount (state r)) = 1.
Proof. repeat split. Qed.

End Witnesses.

(** ** Further properties of the notification service *)

Section ServiceBehaviour.

Import NotificationService.

Context {number : Type}.
Variable number_to_string : number -> jsstring.

Local Abbreviation ND := (NotificationData.t number).
Local Abbreviation notification_of := (notification_of number_to_string).
Local Abbreviation handler := (handler number_to_string).
Local Abbreviation receive := (receive number_to_string).
Local Abbreviation step := (step number_to_string).
Local Abbreviation run := (run number_to_string).
Local Abbreviation calls subscribers snapshot :=
  (map (fun c : Callback => @ListenerCall number c snapshot) subscribers).
Local Abbreviation mark notificationId :=
  (fun n : ND =>
     if JS.eqb (NotificationData.id n) notificationId
     then NotificationData.with_read_true n else n).
Local Abbreviation b2n b := (if b : bool then 1 else 0).

(** X1.  Whatever operations run, the list afterwards is longer than
    before by the number of events that arrived while a socket was open:
    nothing ever removes a record, and nothing else adds one.  For a new
    service the length is that number. *)
Theorem list_grows_by_received :
  forall (ops : list (Op number)) (s : t number),
    length (notifications (state (run ops s)))
    = Spec.received (is_open s) ops + length (notifications s)
    /\ length (notifications s) <= length (notifications (state (run ops s)))
    /\ length (notifications (state (run ops new)))
       = Spec.received false ops.
Proof.
  intros ops s. rewrite !(run_length number_to_string).
  cbn [notifications new length is_open socket]. repeat split; lia.
Qed.

(** X2.  The listener of an event first hands the new list to every
    subscriber, then creates a browser notification, tagged with the
    record's identifier, only if the permission is granted (it never asks
    for it), and last shows one toast: an error toast that stays eight
    seconds for a blood request, a success toast of five seconds for the
    other two kinds. *)
Theorem handler_effects :
  forall env e (s : t number),
    let n := notification_of env e in
    trace (handler env e s)
    = calls (listeners s) (n :: notifications s)
      ++ match permission env with
         | Permission.granted =>
             [NewNotification (NotificationData.title n)
                (NotificationData.message n) (JS.lit "/blood-icon.png")
                (NotificationData.id n)]
         | _ => []
         end
      ++ [match e with
          | InboundEvent.blood_request_match _ =>
              ToastError (NotificationData.message n) n 8000
          | _ => ToastSuccess (NotificationData.message n) 5000
          end].
Proof.
  intros env e s n. subst n.
  unfold NotificationService.handler, bind.
  rewrite addNotification_run.
  unfold showBrowserNotification, showToastNotification.
  destruct (permission env), e; reflexivity.
Qed.

Lemma eqb_refl (a : jsstring) : JS.eqb a a = true.
Proof.
  induction a as [|c a IH]; [reflexivity|].
  simpl. rewrite N.eqb_refl, IH. reflexivity.
Qed.

Lemma eqb_eq (a b : jsstring) : JS.eqb a b = true <-> a = b.
Proof.
  split; [|intros ->; apply eqb_refl].
  revert b. induction a as [|c a IH]; intros [|d b] H;
    try discriminate; [reflexivity|].
  simpl in H. apply andb_true_iff in H. destruct H as [Hc Ha].
  apply N.eqb_eq in Hc. rewrite Hc, (IH b Ha). reflexivity.
Qed.

Lemma mark_absent notificationId (l : list ND) :
  forallb (fun n => negb (JS.eqb (NotificationData.id n) notificationId)) l
  = true ->
  map (mark notificationId) l = l.
Proof.
  induction l as [|n l IH]; [reflexivity|].
  simpl. intros H. apply andb_true_iff in H. destruct H as [Hn Hl].
  apply negb_true_iff in Hn. rewrite Hn, IH by exact Hl. reflexivity.
Qed.

(** X3.  [markAsRead] with an identifier that no record has changes
    nothing in the service, and still calls every subscriber with the
    list. *)
Theorem markAsRead_unknown_id :
  forall (notificationId : jsstring) (s : t number),
    forallb
      (fun n => negb (JS.eqb (NotificationData.id n) notificationId))
      (notifications s)
    = true ->
    markAsRead notificationId s
    = (tt, s, calls (listeners s) (notifications s)).
Proof.
  intros i s H. rewrite markAsRead_run, (mark_absent _ _ H).
  destruct s; reflexivity.
Qed.

Lemma unread_after_mark notificationId (l : list ND) :
  Spec.unread (map (mark notificationId) l)
  + Behaviour.unread_with_id notificationId l
  = Spec.unread l.
Proof.
  induction l as [|n l IH]; [reflexivity|].
  cbn [map Spec.unread Behaviour.unread_with_id].
  destruct (JS.eqb (NotificationData.id n) notificationId);
    destruct (NotificationData.read n) eqn:R; cbn; rewrite ?R; lia.
Qed.

(** X4.  [markAsRead] lowers the unread count by the number of unread
    records that have the identifier (all of them are marked, not only the
    first), so the count never goes up; the list keeps its length. *)
Theorem markAsRead_lowers_unread_count :
  forall (notificationId : jsstring) (s : t number),
    let s' := state (markAsRead notificationId s) in
    result (getUnreadCount s')
    + Behaviour.unread_with_id notificationId (notifications s)
    = result (getUnreadCount s)
    /\ result (getUnreadCount s') <= result (getUnreadCount s)
    /\ length (notifications s') = length (notifications s).
Proof.
  intros i s s'. subst s'. rewrite markAsRead_run.
  unfold getUnreadCount, bind, result.
  cbn [state fst snd notifications get ret].
  rewrite !unread_filter, length_map.
  pose proof (unread_after_mark i (notifications s)). repeat split; lia.
Qed.

Lemma id_shape env e :
  NotificationData.id (notification_of env e)
  = Behaviour.prefix_of (Behaviour.kind_of e)
      ++ Behaviour.source_id e ++ JS.lit "_"
      ++ number_to_string (now env).
Proof. destruct e; reflexivity. Qed.

(** X5.  Records of different kinds never have the same identifier,
    whatever their payloads and arrival times. *)
Theorem ids_of_kinds_differ :
  forall env1 env2 (e1 e2 : InboundEvent.t number),
    Behaviour.kind_of e1 <> Behaviour.kind_of e2 ->
    NotificationData.id (notification_of env1 e1)
    <> NotificationData.id (notification_of env2 e2).
Proof.
  intros env1 env2 e1 e2 Hk. rewrite !id_shape.
  destruct e1, e2; cbn in *; try congruence; discriminate.
Qed.

(** X6.  Two events of one kind about the same request that arrive at the
    same clock reading get the same identifier, even when the rest of
    their payloads differs; one [markAsRead] with it then marks both
    records. *)
Theorem same_source_same_clock_collide :
  forall env1 env2 (e1 e2 : InboundEvent.t number) (s : t number),
    Behaviour.kind_of e1 = Behaviour.kind_of e2 ->
    Behaviour.source_id e1 = Behaviour.source_id e2 ->
    now env1 = now env2 ->
    socket s <> None ->
    let n1 := notification_of env1 e1 in
    let n2 := notification_of env2 e2 in
    NotificationData.id n2 = NotificationData.id n1
    /\ notifications
         (state (run [Receive env1 e1; Receive env2 e2;
                      MarkAsRead (NotificationData.id n1)] s))
       = NotificationData.with_read_true n2
           :: NotificationData.with_read_true n1
           :: map (mark (NotificationData.id n1)) (notifications s).
Proof.
  intros env1 env2 e1 e2 s Hk Hsrc Hnow Hs n1 n2.
  assert (Hid : NotificationData.id n2 = NotificationData.id n1).
  { subst n1 n2. rewrite !id_shape, Hk, Hsrc, Hnow. reflexivity. }
  split; [exact Hid|].
  rewrite !run_cons. cbn [NotificationService.run state fst snd ret].
  cbn [NotificationService.step].
  rewrite (receive_connected number_to_string env1 e1 s Hs), handler_state.
  rewrite receive_connected, handler_state by exact Hs.
  rewrite markAsRead_run.
  cbn [state fst snd notifications map]. fold n1 n2.
  rewrite Hid, eqb_refl. reflexivity.
Qed.

(** *** The channel *)

Lemma opened_app (tr1 tr2 : list (Effect number)) :
  Behaviour.opened (tr1 ++ tr2)
  = Behaviour.opened tr1 + Behaviour.opened tr2.
Proof.
  induction tr1 as [|e tr1 IH]; [reflexivity|].
  destruct e; simpl; rewrite IH; reflexivity.
Qed.

Lemma closed_app (tr1 tr2 : list (Effect number)) :
  Behaviour.closed (tr1 ++ tr2)
  = Behaviour.closed tr1 + Behaviour.closed tr2.
Proof.
  induction tr1 as [|e tr1 IH]; [reflexivity|].
  destruct e; simpl; rewrite IH; reflexivity.
Qed.

Lemma emitted_app (tr1 tr2 : list (Effect number)) :
  emitted (tr1 ++ tr2) = emitted tr1 ++ emitted tr2.
Proof.
  induction tr1 as [|e tr1 IH]; [reflexivity|].
  destruct e; simpl; rewrite IH; reflexivity.
Qed.

Lemma channel_calls subscribers (snapshot : list ND) :
  Behaviour.opened (calls subscribers snapshot) = 0
  /\ Behaviour.closed (calls subscribers snapshot) = 0
  /\ emitted (calls subscribers snapshot) = [].
Proof.
  induction subscribers as [|c cs (Ho & Hc & He)]; repeat split; assumption.
Qed.

Lemma channel_handler env e (s : t number) :
  Behaviour.opened (trace (handler env e s)) = 0
  /\ Behaviour.closed (trace (handler env e s)) = 0
  /\ emitted (trace (handler env e s)) = [].
Proof.
  unfold NotificationService.handler, bind. rewrite addNotification_run.
  unfold showBrowserNotification, showToastNotification.
  destruct (channel_calls (listeners s)
              (notification_of env e :: notifications s)) as (Ho & Hc & He).
  destruct (permission env), (NotificationData.type (notification_of env e));
    cbn [trace snd fst emit ret];
    rewrite ?opened_app, ?closed_app, ?emitted_app, Ho, Hc, He;
    repeat split.
Qed.

(** What one operation does to the channel: the socket held afterwards,
    and the sockets opened and closed and the responses emitted. *)
Lemma step_channel op (s : t number) :
  let r := step op s in
  socket (state r)
  = match op with
    | Connect env_url userId userRole userProfile =>
        match socket s with
        | Some sock => Some sock
        | None =>
            Some (Socket.mk
                    (JS.or_else env_url (JS.lit "http://localhost:5000"))
                    (Auth.mk userId userRole
                       (UserProfile.bloodType userProfile)
                       (UserProfile.location userProfile)))
        end
    | Disconnect => None
    | _ => socket s
    end
  /\ Behaviour.opened (trace r)
     = match op with
       | Connect _ _ _ _ => b2n (negb (is_open s))
       | _ => 0
       end
  /\ Behaviour.closed (trace r)
     = match op with
       | Disconnect => b2n (is_open s)
       | _ => 0
       end
  /\ emitted (trace r)
     = match op with
       | RespondToBloodRequest requestId response userInfo =>
           if is_open s
           then [DonorResponse.mk requestId response userInfo]
           else []
       | _ => []
       end.
Proof.
  unfold is_open.
  destruct op; cbn [NotificationService.step]; cbv zeta;
    try (repeat split; fail).
  - unfold connect, bind. simpl.
    destruct (socket s) eqn:E; cbn; rewrite ?E; repeat split.
  - unfold connected, on_connect, bind. simpl.
    destruct (socket s) eqn:E; cbn; rewrite ?E; repeat split.
  - destruct (socket s) eqn:E.
    + rewrite receive_connected, handler_state by congruence.
      destruct (channel_handler env e s) as (Ho & Hc & He).
      rewrite Ho, Hc, He. cbn [socket]. rewrite E. repeat split.
    + rewrite receive_closed by exact E. cbn. rewrite E. repeat split.
  - unfold handleNotificationClick.
    destruct (NotificationData.type notification); repeat split.
  - unfold respondToBloodRequest, bind. simpl.
    destruct (socket s) eqn:E; cbn; rewrite ?E; repeat split.
  - rewrite markAsRead_run. cbn [state trace fst snd socket].
    destruct (channel_calls (listeners s)
                (map (mark notificationId) (notifications s)))
      as (Ho & Hc & He).
    rewrite Ho, Hc, He. repeat split.
  - rewrite disconnect_run. cbn [state trace fst snd].
    destruct (socket s) eqn:E; cbn; rewrite ?E; repeat split.
Qed.

(** X7.  Along any operations the sockets opened and the sockets closed
    stay in balance with the socket held: opened minus closed is one when
    a socket is held at the end and none at the start, and so on.  The
    service never opens a second socket while it holds one, and never
    drops one without closing it. *)
Theorem sockets_opened_and_closed_balance :
  forall (ops : list (Op number)) (s : t number),
    let r := run ops s in
    Behaviour.opened (trace r) + b2n (is_open s)
    = Behaviour.closed (trace r) + b2n (is_open (state r)).
Proof.
  induction ops as [|op ops IH]; intros s; cbv zeta; [reflexivity|].
  rewrite run_cons. cbn [state trace fst snd].
  rewrite opened_app, closed_app.
  specialize (IH (state (step op s))). cbv zeta in IH.
  destruct (step_channel op s) as (_ & Ho & Hc & _).
  pose proof (step_socket number_to_string op s) as Hopen.
  rewrite Ho, Hc. rewrite Hopen in IH.
  destruct op; destruct (is_open s); cbn in *; lia.
Qed.

Lemma run_keeps_socket ops :
  forall (s : t number) sock,
    socket s = Some sock ->
    Behaviour.disconnects ops = false ->
    socket (state (run ops s)) = Some sock
    /\ Behaviour.opened (trace (run ops s)) = 0.
Proof.
  induction ops as [|op ops IH]; intros s sock Hs Hd; [auto|].
  rewrite run_cons. cbn [state trace fst snd]. rewrite opened_app.
  destruct (step_channel op s) as (Hk & Ho & _ & _).
  assert (Hk' : socket (state (step op s)) = Some sock).
  { rewrite Hk. destruct op; try exact Hs.
    - rewrite Hs. reflexivity.
    - discriminate Hd. }
  assert (Hd' : Behaviour.disconnects ops = false)
    by (destruct op; try exact Hd; discriminate Hd).
  destruct (IH _ _ Hk' Hd') as (IH1 & IH2).
  rewrite Ho, IH2. split; [exact IH1|].
  destruct op; try reflexivity. unfold is_open. rewrite Hs. reflexivity.
Qed.

Lemma effect_run env_url userProfile callback (s : t number) :
  NotificationList.effect env_url userProfile callback s
  = ((notifications s, unsubscribe callback),
     mk match socket s with
        | Some sock => Some sock
        | None =>
            Some (Socket.mk
                    (JS.or_else env_url (JS.lit "http://localhost:5000"))
                    (Auth.mk (UserProfile.id userProfile)
                       (Role.toString (UserProfile.role userProfile))
                       (UserProfile.bloodType userProfile)
                       (UserProfile.location userProfile)))
        end
       (notifications s) (listeners s ++ [callback]),
     trace (connect env_url (UserProfile.id userProfile)
              (Role.toString (UserProfile.role userProfile)) userProfile
              s)).
Proof.
  unfold NotificationList.effect, connect, bind. simpl.
  destruct (socket s) eqn:E; cbn; rewrite ?E, ?app_nil_r; reflexivity.
Qed.

(** X8.  Once a socket is open, nothing but [disconnect] replaces it: after
    any operations without a [disconnect] the service holds the very
    socket, with the [auth] it was opened with, and has opened no other.
    So when the notification center runs its effect again for a changed
    profile, the channel stays the one of the first profile. *)
Theorem open_socket_is_kept :
  forall (ops : list (Op number)) (s : t number) sock env_url userProfile
         callback,
    socket s = Some sock ->
    Behaviour.disconnects ops = false ->
    let s' := state (run ops s) in
    socket s' = Some sock
    /\ Behaviour.opened (trace (run ops s)) = 0
    /\ socket (state (NotificationList.effect env_url userProfile callback
                        s'))
       = Some sock
    /\ Behaviour.opened
         (trace (NotificationList.effect env_url userProfile callback s'))
       = 0.
Proof.
  intros ops s sock env_url userProfile callback Hs Hd s'.
  destruct (run_keeps_socket ops s Hs Hd) as (Hk & Ho). fold s' in Hk.
  rewrite effect_run. cbn [state trace fst snd socket]. rewrite Hk.
  repeat split; try assumption.
  unfold connect, bind. simpl. rewrite Hk. reflexivity.
Qed.

(** X9.  The responses a run of operations emits are those issued while a
    socket was open, in their order; a response issued while none is open
    is dropped for good: it is not sent after a later [connect]. *)
Theorem responses_are_not_queued :
  forall (ops : list (Op number)) (s : t number),
    emitted (trace (run ops s)) = Behaviour.responded (is_open s) ops.
Proof.
  induction ops as [|op ops IH]; intros s; [reflexivity|].
  rewrite run_cons. cbn [state trace fst snd].
  rewrite emitted_app, IH, (step_socket number_to_string).
  destruct (step_channel op s) as (_ & _ & _ & He). rewrite He.
  destruct op; reflexivity.
Qed.

(** *** The notification center as a subscriber *)

Lemma shown_app callback (initial : list ND) (tr1 tr2 : list (Effect number)) :
  NotificationList.shown callback initial (tr1 ++ tr2)
  = NotificationList.shown callback
      (NotificationList.shown callback initial tr1) tr2.
Proof.
  unfold NotificationList.shown.
  rewrite listener_calls_app, fold_left_app. reflexivity.
Qed.

Lemma shown_settled callback (x : list ND) subscribers :
  fold_left
    (fun current call =>
       if Nat.eqb (fst call) callback then snd call else current)
    (map (fun c : Callback => (c, x)) subscribers) x
  = x.
Proof.
  induction subscribers as [|c cs IH]; [reflexivity|].
  simpl. destruct (Nat.eqb c callback); exact IH.
Qed.

Lemma shown_called callback (x initial : list ND) subscribers :
  In callback subscribers ->
  fold_left
    (fun current call =>
       if Nat.eqb (fst call) callback then snd call else current)
    (map (fun c : Callback => (c, x)) subscribers) initial
  = x.
Proof.
  revert initial.
  induction subscribers as [|c cs IH]; intros initial Hin; [destruct Hin|].
  simpl. destruct (Nat.eqb c callback) eqn:E.
  - apply shown_settled.
  - apply IH. destruct Hin as [->|Hin]; [|exact Hin].
    rewrite Nat.eqb_refl in E. discriminate.
Qed.

Lemma step_shown callback op (s : t number) :
  In callback (listeners s) ->
  NotificationList.shown callback (notifications s) (trace (step op s))
  = notifications (state (step op s)).
Proof.
  intros Hin. unfold NotificationList.shown.
  destruct (step_run number_to_string op s) as (_ & Hn & Hcalls).
  rewrite Hcalls, Hn.
  destruct op; try reflexivity.
  - destruct (socket s); [apply shown_called; exact Hin | reflexivity].
  - apply shown_called. exact Hin.
Qed.

Lemma run_shown callback ops :
  forall s : t number,
    In callback (listeners s) ->
    Behaviour.unsubscribes callback ops = false ->
    NotificationList.shown callback (notifications s) (trace (run ops s))
    = notifications (state (run ops s)).
Proof.
  induction ops as [|op ops IH]; intros s Hin Hu; [reflexivity|].
  rewrite run_cons. cbn [state trace fst snd].
  rewrite shown_app, step_shown by exact Hin.
  apply IH.
  - destruct (step_run number_to_string op s) as (Hl & _ & _). rewrite Hl.
    destruct op; try exact Hin.
    + apply in_or_app. left. exact Hin.
    + apply filter_In. split; [exact Hin|].
      simpl in Hu. apply orb_false_iff in Hu. destruct Hu as [Hne _].
      rewrite Nat.eqb_sym. rewrite Hne. reflexivity.
  - destruct op; try exact Hu.
    simpl in Hu. apply orb_false_iff in Hu. tauto.
Qed.

(** X10.  A mounted notification center is never stale: from its effect
    on, and as long as its clean-up has not run, the list its callback
    was last called with (or the list it loaded, if it was not called) is
    the list the service holds, whatever operations happen. *)
Theorem mounted_center_shows_current_list :
  forall env_url userProfile callback (ops : list (Op number))
         (s : t number),
    Behaviour.unsubscribes callback ops = false ->
    let r := NotificationList.effect env_url userProfile callback s in
    NotificationList.shown callback (fst (result r))
      (trace (run ops (state r)))
    = notifications (state (run ops (state r))).
Proof.
  intros env_url userProfile callback ops s Hu r. subst r.
  rewrite effect_run. cbn [result state fst snd].
  rewrite <- (run_shown callback ops); [reflexivity | | exact Hu].
  cbn [listeners]. apply in_or_app. right. left. reflexivity.
Qed.

Lemma filter_other callback (l : list Callback) :
  ~ In callback l ->
  filter (fun c => negb (Nat.eqb c callback)) l = l.
Proof.
  induction l as [|c l IH]; intros Hn; [reflexivity|].
  simpl. destruct (Nat.eqb c callback) eqn:E.
  - apply Nat.eqb_eq in E. subst. exfalso. apply Hn. left. reflexivity.
  - simpl. rewrite IH; [reflexivity|]. intros H. apply Hn. right. exact H.
Qed.

(** X11.  The effect of the notification center and its clean-up: for a
    callback that is not yet subscribed, the effect leaves a socket open,
    adds the callback after the existing subscribers and loads the list
    without changing it; the clean-up puts the subscribers back exactly as
    they were, but leaves the socket open: unmounting does not
    disconnect. *)
Theorem effect_then_cleanup :
  forall env_url userProfile callback (s : t number),
    ~ In callback (listeners s) ->
    let r := NotificationList.effect env_url userProfile callback s in
    let r' := snd (result r) (state r) in
    fst (result r) = notifications s
    /\ is_open (state r) = true
    /\ listeners (state r) = listeners s ++ [callback]
    /\ notifications (state r) = notifications s
    /\ listeners (state r') = listeners s
    /\ notifications (state r') = notifications s
    /\ socket (state r') = socket (state r)
    /\ trace r' = [].
Proof.
  intros env_url userProfile callback s Hn r r'. subst r' r.
  rewrite effect_run. cbn [result state trace fst snd].
  unfold unsubscribe, bind, is_open. cbn.
  rewrite filter_app, filter_other by exact Hn.
  cbn. rewrite Nat.eqb_refl. cbn. rewrite app_nil_r.
  destruct (socket s); repeat split.
Qed.

(** *** The records and their cards *)

Lemma well_kinded_notification_of env e :
  Behaviour.well_kinded (notification_of env e).
Proof. exists e. destruct e; split; reflexivity. Qed.

Lemma well_kinded_mark notificationId (l : list ND) :
  Forall Behaviour.well_kinded l ->
  Forall Behaviour.well_kinded (map (mark notificationId) l).
Proof.
  induction 1 as [|n l Hn _ IH]; simpl; constructor; [|exact IH].
  destruct (JS.eqb (NotificationData.id n) notificationId); [|exact Hn].
  destruct Hn as (e & Hd & Ht). exists e. split; assumption.
Qed.

Lemma run_well_kinded ops :
  forall s : t number,
    Forall Behaviour.well_kinded (notifications s) ->
    Forall Behaviour.well_kinded (notifications (state (run ops s))).
Proof.
  induction ops as [|op ops IH]; intros s Hs; [exact Hs|].
  rewrite run_cons. cbn [state fst snd]. apply IH.
  destruct (step_run number_to_string op s) as (_ & Hn & _). rewrite Hn.
  destruct op; try exact Hs.
  - destruct (socket s); [|exact Hs].
    constructor; [apply well_kinded_notification_of | exact Hs].
  - apply well_kinded_mark. exact Hs.
Qed.

Lemma well_kinded_card (n : ND) :
  Behaviour.well_kinded n ->
  match NotificationData.type n with
  | NotificationType.blood_request =>
      exists d, NotificationCard.requestData n = Some d
  | _ => NotificationCard.requestData n = None
  end.
Proof.
  intros (e & Hd & Ht). unfold NotificationCard.requestData.
  rewrite Hd, Ht. destruct e; cbn; eauto.
Qed.

(** X12.  Every record a service ever holds, starting from a new one,
    carries the event it was made from under the kind of that event.  So a
    card of kind blood request always finds the request in
    [notification.data], and no other card does. *)
Theorem records_carry_their_event :
  forall ops : list (Op number),
    Forall
      (fun n =>
         Behaviour.well_kinded n
         /\ match NotificationData.type n with
            | NotificationType.blood_request =>
                NotificationCard.showsDetails n = true
                /\ exists d, NotificationCard.requestData n = Some d
            | _ =>
                NotificationCard.showsDetails n = false
                /\ NotificationCard.requestData n = None
            end)
      (notifications (state (run ops new))).
Proof.
  intros ops.
  pose proof (run_well_kinded ops new (Forall_nil _)) as H.
  apply Forall_impl with (2 := H).
  intros n Hn. split; [exact Hn|].
  pose proof (well_kinded_card Hn) as Hc.
  destruct Hn as (e & Hd & _).
  unfold NotificationCard.showsDetails. rewrite Hd.
  destruct (NotificationData.type n); auto.
Qed.

Lemma donor_role (r : Role.t) :
  JS.eqb (Role.toString r) (JS.lit "donor") = true -> r = Role.donor.
Proof. destruct r; [reflexivity | discriminate | discriminate]. Qed.

Lemma respond_emitted requestId response userInfo (s : t number) :
  emitted (trace (respondToBloodRequest requestId response userInfo s))
  = if is_open s
    then [DonorResponse.mk requestId response userInfo]
    else [].
Proof.
  unfold respondToBloodRequest, bind, is_open. simpl.
  destruct (socket s); reflexivity.
Qed.

(** X13.  On the card of a record the service holds, the accept and
    decline buttons are there only for a donor and only on a blood
    request.  Accept then answers the request that arrived: one response
    with that request's identifier and the donor's id, name, phone and
    blood type.  Decline answers it with id and name only: neither phone
    nor blood type leaves the browser. *)
Theorem card_actions_answer_the_request :
  forall (ops : list (Op number)) userProfile (n : ND),
    In n (notifications (state (run ops new))) ->
    NotificationCard.showsActions
      (Role.toString (UserProfile.role userProfile)) n = true ->
    UserProfile.role userProfile = Role.donor
    /\ NotificationData.type n = NotificationType.blood_request
    /\ exists d,
         NotificationData.data n = Some (InboundEvent.blood_request_match d)
         /\ NotificationCard.clickAccept userProfile n
            = Some (NotificationCenter.handleAcceptBloodRequest
                      userProfile d)
         /\ NotificationCard.clickDecline userProfile n
            = Some (NotificationCenter.handleDeclineBloodRequest
                      userProfile d)
         /\ forall s : t number,
              emitted (trace (NotificationCenter.handleAcceptBloodRequest
                                userProfile d s))
              = (if is_open s
                 then [DonorResponse.mk (BloodRequest.id d) Response.accept
                         (DonorInfo.mk (UserProfile.id userProfile)
                            (UserProfile.fullName userProfile)
                            (Some (UserProfile.phoneNumber userProfile))
                            (UserProfile.bloodType userProfile))]
                 else [])
              /\ emitted
                   (trace (NotificationCenter.handleDeclineBloodRequest
                             userProfile d s))
                 = (if is_open s
                    then [DonorResponse.mk (BloodRequest.id d)
                            Response.decline
                            (DonorInfo.mk (UserProfile.id userProfile)
                               (UserProfile.fullName userProfile)
                               None None)]
                    else []).
Proof.
  intros ops userProfile n Hin Hshow.
  pose proof (run_well_kinded ops new (Forall_nil _)) as Hall.
  rewrite Forall_forall in Hall. specialize (Hall n Hin).
  pose proof (well_kinded_card Hall) as Hcard.
  unfold NotificationCard.clickAccept, NotificationCard.clickDecline.
  rewrite Hshow.
  unfold NotificationCard.showsActions in Hshow.
  apply andb_true_iff in Hshow. destruct Hshow as [Hdet Hrole].
  apply donor_role in Hrole.
  unfold NotificationCard.showsDetails in Hdet.
  destruct (NotificationData.type n) eqn:Ht; try discriminate.
  destruct Hcard as (d & Hd).
  split; [exact Hrole|]. split; [reflexivity|].
  exists d. rewrite Hd.
  unfold NotificationCard.requestData in Hd.
  destruct (NotificationData.data n) as [[d'| |]|]; try discriminate.
  injection Hd as ->.
  repeat split; apply respond_emitted.
Qed.


Lemma unread_with_id_pos (n : ND) (l : list ND) :
  In n l ->
  NotificationData.read n = false ->
  1 <= Behaviour.unread_with_id (NotificationData.id n) l.
Proof.
  intros Hin Hr. induction l as [|m l IH]; [destruct Hin|].
  cbn [Behaviour.unread_with_id]. destruct Hin as [->|Hin].
  - rewrite eqb_refl, Hr. simpl. lia.
  - specialize (IH Hin). lia.
Qed.

(** X15.  The "Mark as read" button is on the cards of unread records
    only.  Clicking it on a record of the list marks that record and
    every other record with its identifier, so none of them offers the
    button again, and the unread count goes down by at least one. *)
Theorem mark_as_read_button_disappears :
  forall (s : t number) (n : ND),
    In n (notifications s) ->
    NotificationCard.showsMarkAsRead n = true ->
    let s' := state (markAsRead (NotificationData.id n) s) in
    NotificationCard.clickMarkAsRead n
    = Some (markAsRead (NotificationData.id n))
    /\ Forall
         (fun m =>
            JS.eqb (NotificationData.id m) (NotificationData.id n)
            && NotificationCard.showsMarkAsRead m = false)
         (notifications s')
    /\ result (getUnreadCount s') < result (getUnreadCount s).
Proof.
  intros s n Hin Hshow s'.
  unfold NotificationCard.clickMarkAsRead. rewrite Hshow.
  split; [reflexivity|].
  unfold NotificationCard.showsMarkAsRead in *.
  apply negb_true_iff in Hshow.
  subst s'. rewrite markAsRead_run. cbn [state fst snd notifications].
  split.
  - apply Forall_forall. intros m Hm.
    apply in_map_iff in Hm. destruct Hm as (o & <- & _). cbv beta.
    destruct (JS.eqb (NotificationData.id o) (NotificationData.id n)) eqn:E.
    + change (NotificationData.id (NotificationData.with_read_true o))
        with (NotificationData.id o).
      rewrite E. reflexivity.
    + rewrite E. reflexivity.
  - unfold getUnreadCount, bind, result. cbn [get ret fst snd notifications].
    rewrite !unread_filter.
    pose proof (unread_after_mark (NotificationData.id n) (notifications s)).
    pose proof (unread_with_id_pos n (notifications s) Hin Hshow). lia.
Qed.

End ServiceBehaviour.

(** ** Further properties of the profile form *)

Section ProfileBehaviour.

Import ProfileSettings.

Lemma changes_run cs (s : t) :
  exists d,
    ProfileForm.changes cs s
    = (inl tt, mk (isEditing s) (isLoading s) d, []).
Proof.
  revert s. induction cs as [|c cs IH]; intros s.
  - exists (formData s). destruct s; reflexivity.
  - cbn [ProfileForm.changes]. unfold bind, ProfileForm.onChange.
    cbn [setFormData].
    match goal with
    | |- context [ProfileForm.changes cs ?s1] =>
        destruct (IH s1) as (d & Hd); rewrite Hd
    end.
    exists d. reflexivity.
Qed.

(** X16.  Cancel throws the draft away: after any run of changes to the
    inputs, [handleCancel] leaves the draft at the profile's committed
    values and the form out of edit mode.  Opening the form, changing
    inputs and cancelling brings a freshly mounted form back to where it
    was, and none of it calls the update or anything else. *)
Theorem cancel_discards_changes :
  forall userProfile (cs : list ProfileForm.Change) (s : t),
    bind (ProfileForm.changes cs) (fun _ => handleCancel userProfile) s
    = (inl tt, mk false (isLoading s) (committed userProfile), [])
    /\ bind ProfileForm.clickEdit
         (fun _ =>
            bind (ProfileForm.changes cs)
              (fun _ => handleCancel userProfile))
         (mount userProfile)
       = (inl tt, mount userProfile, [])
    /\ snd (ProfileForm.changes cs s) = [].
Proof.
  intros userProfile cs s.
  assert (H : forall s0,
             bind (ProfileForm.changes cs)
               (fun _ => handleCancel userProfile) s0
             = (inl tt, mk false (isLoading s0) (committed userProfile),
                [])).
  { intros s0. unfold bind at 1.
    destruct (changes_run cs s0) as (d & Hd). rewrite Hd. reflexivity. }
  repeat split.
  - apply H.
  - unfold bind at 1, ProfileForm.clickEdit. cbn [setIsEditing].
    rewrite H. reflexivity.
  - destruct (changes_run cs s) as (d & Hd). rewrite Hd. reflexivity.
Qed.

Lemma trimStart_fixed (s : jsstring) :
  match s with
  | [] => True
  | c :: _ => JS.is_white_space c = false
  end ->
  JS.trimStart s = s.
Proof.
  destruct s as [|c s]; [reflexivity|].
  simpl. intros ->. reflexivity.
Qed.

Lemma trim_tidy (s : jsstring) : Behaviour.tidy s -> JS.trim s = s.
Proof.
  intros [Hh Hl]. unfold JS.trim, JS.trimEnd.
  rewrite (trimStart_fixed s Hh), (trimStart_fixed (rev s) Hl).
  apply rev_involutive.
Qed.

Lemma trim_idempotent (s : jsstring) : JS.trim (JS.trim s) = JS.trim s.
Proof. apply trim_tidy, trim_ends. Qed.

(** X17.  The full name, phone number and location that [handleSave]
    sends, and the organisation name of a clinic, neither start nor end
    with white space.  So typing the values that were sent in again and
    saving sends the same payload. *)
Theorem saved_strings_are_tidy :
  forall userProfile (d : FormData.t),
    let u := updateData userProfile d in
    Behaviour.tidy (UpdateData.fullName u)
    /\ Behaviour.tidy (UpdateData.phoneNumber u)
    /\ Behaviour.tidy (UpdateData.location u)
    /\ match UpdateData.organizationName u with
       | Some v => Behaviour.tidy v
       | None => True
       end
    /\ updateData userProfile (ProfileForm.retyped d u) = u.
Proof.
  intros userProfile d u. subst u. unfold updateData.
  cbn [UpdateData.fullName UpdateData.phoneNumber UpdateData.location
       UpdateData.organizationName].
  do 3 (split; [apply trim_ends|]).
  split.
  - destruct (Role.eqb (UserProfile.role userProfile) Role.clinic);
      [apply trim_ends | exact I].
  - unfold ProfileForm.retyped.
    destruct (UserProfile.role userProfile); cbn -[JS.trim];
      rewrite ?trim_idempotent; reflexivity.
Qed.

Lemma trimStart_blank (s : jsstring) :
  forallb JS.is_white_space s = true -> JS.trimStart s = [].
Proof.
  induction s as [|c s IH]; [reflexivity|].
  simpl. intros H. apply andb_true_iff in H. destruct H as [Hc Hs].
  rewrite Hc. exact (IH Hs).
Qed.

(** X18.  [handleSave] does not validate the draft: a full name that is
    empty or all white space is sent, as the empty string, in the one
    update call it makes like for any other draft. *)
Theorem blank_name_is_sent_empty :
  forall userProfile outcome refresh_throws (s : t),
    forallb JS.is_white_space (FormData.fullName (formData s)) = true ->
    exists u,
      updates (snd (handleSave userProfile outcome refresh_throws s)) = [u]
      /\ UpdateData.fullName u = [].
Proof.
  intros userProfile outcome refresh_throws s H.
  exists (updateData userProfile (formData s)). split.
  - unfold handleSave, try_catch_finally, profile_update, onProfileUpdate,
      bind.
    destruct outcome as [[e|]|e]; simpl;
      try destruct (JS.truthy e); simpl;
      destruct refresh_throws; reflexivity.
  - cbn. unfold JS.trim, JS.trimEnd.
    rewrite (trimStart_blank _ H). reflexivity.
Qed.


End ProfileBehaviour.

Section AvatarBehaviour.

Variable toUpperCase : jsstring -> jsstring.

Lemma split_letters (s : jsstring) :
  exists piece pieces,
    Avatar.split 32%N s = piece :: pieces
    /\ Avatar.join (map Avatar.first pieces) = Avatar.word_starts false s
    /\ Avatar.join (map Avatar.first (piece :: pieces))
       = Avatar.word_starts true s.
Proof.
  induction s as [|c s (p & ps & Hs & Hf & Ht)].
  - exists [], []. repeat split.
  - cbn [Avatar.split Avatar.word_starts]. rewrite Hs.
    destruct (N.eqb c 32%N).
    + exists [], (p :: ps). repeat split; exact Ht.
    + exists (c :: p), ps. repeat split; [exact Hf|].
      cbn. rewrite Hf. reflexivity.
Qed.

Lemma word_starts_no_space after_space (s : jsstring) :
  forallb (fun c => negb (N.eqb c 32%N)) (Avatar.word_starts after_space s)
  = true
  /\ length (Avatar.word_starts after_space s) <= length s.
Proof.
  revert after_space. induction s as [|c s IH]; intros b; [split; auto|].
  cbn [Avatar.word_starts length].
  destruct (N.eqb c 32%N) eqn:E.
  - destruct (IH true). split; [assumption|lia].
  - destruct (IH false). destruct b; cbn; rewrite ?E; split; auto; lia.
Qed.

(** X20.  The avatar text, before it is put in upper case, is made of the
    code units that begin a word of the full name: each one that is no
    space and stands first or right after a space, in order.  Leading,
    trailing and doubled spaces add nothing, so the text holds no space
    and is empty for an empty or all-space name. *)
Theorem initials_are_word_starts :
  forall (fullName : jsstring) (k : nat),
    Avatar.initials toUpperCase fullName
    = toUpperCase (Avatar.word_starts true fullName)
    /\ Avatar.letters fullName = Avatar.word_starts true fullName
    /\ forallb (fun c => negb (N.eqb c 32)) (Avatar.letters fullName) = true
    /\ length (Avatar.letters fullName) <= length fullName
    /\ Avatar.letters (repeat 32%N k) = [].
Proof.
  intros fullName k.
  assert (H : forall s, Avatar.letters s = Avatar.word_starts true s).
  { intros s. unfold Avatar.letters.
    destruct (split_letters s) as (p & ps & Hs & _ & Ht).
    rewrite Hs. exact Ht. }
  unfold Avatar.initials. rewrite !H.
  destruct (word_starts_no_space true fullName) as (Hsp & Hlen).
  repeat split; try assumption.
  induction k as [|k IH]; [reflexivity|exact IH].
Qed.

End AvatarBehaviour.

(** ** The further properties at the sample data *)

Section BehaviourWitnesses.

Import NotificationService.

(** The sample service holds no record with identifier "req_r9_1". *)
Lemma markAsRead_unknown_id_witness :
  forallb
    (fun n => negb (JS.eqb (NotificationData.id n) (JS.lit "req_r9_1")))
    (notifications Sample.service)
  = true
  /\ state (markAsRead (JS.lit "req_r9_1") Sample.service) = Sample.service
  /\ length (trace (markAsRead (JS.lit "req_r9_1") Sample.service)) = 2.
Proof.
  assert (H : forallb
                (fun n =>
                   negb (JS.eqb (NotificationData.id n)
                           (JS.lit "req_r9_1")))
                (notifications Sample.service)
              = true) by reflexivity.
  split; [exact H|].
  rewrite (markAsRead_unknown_id (JS.lit "req_r9_1") Sample.service H).
  split; reflexivity.
Defined.

(** A matched request and the fulfilment of the same request at the same
    time. *)
Lemma ids_of_kinds_differ_witness :
  Behaviour.kind_of (InboundEvent.blood_request_match Sample.request)
  <> Behaviour.kind_of
       (@InboundEvent.request_fulfilled N
          (RequestFulfilled.mk (JS.lit "r7")))
  /\ NotificationData.id
       (notification_of Sample.decimal (Sample.env 1001)
          (InboundEvent.blood_request_match Sample.request))
     <> NotificationData.id
          (notification_of Sample.decimal (Sample.env 1001)
             (InboundEvent.request_fulfilled
                (RequestFulfilled.mk (JS.lit "r7")))).
Proof.
  assert (H : Behaviour.kind_of
                (InboundEvent.blood_request_match Sample.request)
              <> Behaviour.kind_of
                   (@InboundEvent.request_fulfilled N
                      (RequestFulfilled.mk (JS.lit "r7"))))
    by discriminate.
  split; [exact H|].
  exact (ids_of_kinds_differ Sample.decimal (Sample.env 1001)
           (Sample.env 1001)
           (InboundEvent.blood_request_match Sample.request)
           (InboundEvent.request_fulfilled
              (RequestFulfilled.mk (JS.lit "r7")))
           H).
Defined.

(** The sample request and the same request from another hospital, both
    at time 1001. *)
Lemma same_source_same_clock_witness :
  socket Sample.service <> None
  /\ map (fun n => (NotificationData.id n, NotificationData.read n))
       (notifications
          (state (run Sample.decimal
                    [Receive (Sample.env 1001)
                       (InboundEvent.blood_request_match Sample.request);
                     Receive (Sample.env 1001)
                       (InboundEvent.blood_request_match
                          Scenario.other_request);
                     MarkAsRead (JS.lit "req_r7_1001")]
                    Sample.service)))
     = [(JS.lit "req_r7_1001", true);
        (JS.lit "req_r7_1001", true);
        (JS.lit "req_r7_1000", false)].
Proof.
  assert (H : socket Sample.service <> None) by discriminate.
  split; [exact H|].
  destruct (same_source_same_clock_collide Sample.decimal (Sample.env 1001)
              (Sample.env 1001)
              (InboundEvent.blood_request_match Sample.request)
              (InboundEvent.blood_request_match Scenario.other_request)
              Sample.service eq_refl eq_refl eq_refl H) as (_ & Hl).
  cbv zeta in Hl.
  change (NotificationData.id
            (notification_of Sample.decimal (Sample.env 1001)
               (InboundEvent.blood_request_match Sample.request)))
    with (JS.lit "req_r7_1001") in Hl.
  rewrite Hl. reflexivity.
Defined.

(** The sample service through a [connect] for the clinic's profile: the
    socket is still the donor's. *)
Lemma open_socket_is_kept_witness :
  socket Sample.service = Some Sample.sock
  /\ Behaviour.disconnects Scenario.later = false
  /\ socket (state (run Sample.decimal Scenario.later Sample.service))
     = Some Sample.sock
  /\ socket
       (state
          (NotificationList.effect None Scenario.clinic 7
             (state (run Sample.decimal Scenario.later Sample.service))))
     = Some Sample.sock.
Proof.
  assert (Hs : socket Sample.service = Some Sample.sock) by reflexivity.
  assert (Hd : Behaviour.disconnects Scenario.later = false)
    by reflexivity.
  destruct (open_socket_is_kept Sample.decimal Scenario.later Sample.service
              None Scenario.clinic 7 Hs Hd) as (H1 & _ & H2 & _).
  repeat split; assumption.
Defined.

(** A center mounted on a new service with callback 7, then the three
    sample events. *)
Lemma mounted_center_witness :
  Behaviour.unsubscribes 7 (Spec.arrivals Sample.events) = false
  /\ length
       (NotificationList.shown 7 []
          (trace
             (run Sample.decimal (Spec.arrivals Sample.events)
                (state (NotificationList.effect None Sample.donor 7 new)))))
     = 3.
Proof.
  assert (H : Behaviour.unsubscribes 7 (Spec.arrivals Sample.events)
              = false) by reflexivity.
  split; [exact H|].
  pose proof (mounted_center_shows_current_list Sample.decimal None
                Sample.donor 7 (Spec.arrivals Sample.events) new H) as Hs.
  cbv zeta in Hs.
  change (fst (result (NotificationList.effect None Sample.donor 7
                         (@new N))))
    with (@nil (NotificationData.t N)) in Hs.
  rewrite Hs. reflexivity.
Defined.

(** A center with callback 7 mounts on the sample service and unmounts. *)
Lemma effect_then_cleanup_witness :
  ~ In 7 (listeners Sample.service)
  /\ listeners
       (state (NotificationList.effect None Sample.donor 7 Sample.service))
     = [1; 2; 7]
  /\ state
       (snd (result (NotificationList.effect None Sample.donor 7
                       Sample.service))
          (state (NotificationList.effect None Sample.donor 7
                    Sample.service)))
     = Sample.service.
Proof.
  assert (H : ~ In 7 (listeners Sample.service)).
  { simpl. intros [H|[H|[]]]; discriminate H. }
  split; [exact H|].
  destruct (effect_then_cleanup None Sample.donor 7 Sample.service H)
    as (_ & _ & Hl & _).
  split; [exact Hl | reflexivity].
Defined.

(** The donor's card of the request that arrived in the sample session. *)
Lemma card_actions_witness :
  In (notification_of Sample.decimal (Sample.env 1001)
        (InboundEvent.blood_request_match Sample.request))
    (notifications (state (run Sample.decimal Scenario.session new)))
  /\ NotificationCard.showsActions
       (Role.toString (UserProfile.role Sample.donor))
       (notification_of Sample.decimal (Sample.env 1001)
          (InboundEvent.blood_request_match Sample.request))
     = true
  /\ UserProfile.role Sample.donor = Role.donor
  /\ NotificationData.type
       (notification_of Sample.decimal (Sample.env 1001)
          (InboundEvent.blood_request_match Sample.request))
     = NotificationType.blood_request.
Proof.
  assert (Hin : In (notification_of Sample.decimal (Sample.env 1001)
                      (InboundEvent.blood_request_match Sample.request))
                  (notifications
                     (state (run Sample.decimal Scenario.session new))))
    by (left; reflexivity).
  assert (Hsh : NotificationCard.showsActions
                  (Role.toString (UserProfile.role Sample.donor))
                  (notification_of Sample.decimal (Sample.env 1001)
                     (InboundEvent.blood_request_match Sample.request))
                = true) by reflexivity.
  destruct (card_actions_answer_the_request Sample.decimal Scenario.session
              Sample.donor _ Hin Hsh) as (Hr & Ht & _).
  repeat split; assumption.
Defined.


(** The unread record of the sample service. *)
Lemma mark_as_read_button_witness :
  In (blood_request_notification Sample.decimal (Sample.env 1000)
        Sample.request)
    (notifications Sample.service)
  /\ NotificationCard.showsMarkAsRead
       (blood_request_notification Sample.decimal (Sample.env 1000)
          Sample.request)
     = true
  /\ result
       (getUnreadCount
          (state (markAsRead (JS.lit "req_r7_1000") Sample.service)))
     < result (getUnreadCount Sample.service).
Proof.
  assert (Hin : In (blood_request_notification Sample.decimal
                      (Sample.env 1000) Sample.request)
                  (notifications Sample.service))
    by (left; reflexivity).
  assert (Hsh : NotificationCard.showsMarkAsRead
                  (blood_request_notification Sample.decimal
                     (Sample.env 1000) Sample.request)
                = true) by reflexivity.
  destruct (mark_as_read_button_disappears Sample.service _ Hin Hsh)
    as (_ & _ & Hlt).
  repeat split; assumption.
Defined.

(** The donor saves a form whose full name is three blanks. *)
Lemma blank_name_witness :
  forallb JS.is_white_space
    (FormData.fullName (ProfileSettings.formData Scenario.blank_form))
  = true
  /\ map UpdateData.fullName
       (ProfileSettings.updates
          (snd (ProfileSettings.handleSave Sample.donor
                  (ProfileSettings.Resolved None) None
                  Scenario.blank_form)))
     = [[]].
Proof.
  assert (H : forallb JS.is_white_space
                (FormData.fullName
                   (ProfileSettings.formData Scenario.blank_form))
              = true) by reflexivity.
  split; [exact H|].
  destruct (blank_name_is_sent_empty Sample.donor
              (ProfileSettings.Resolved None) None Scenario.blank_form H)
    as (u & Hu & Hn).
  rewrite Hu. simpl. rewrite Hn. reflexivity.
Defined.

End BehaviourWitnesses.
